(** * Browser-Use standalone API server: session registry, dispatcher,
      task orchestrator, frame resolver and credential vault.

    A shallow embedding of [browser_use/api/standalone_server.py].  The
    handlers of the FastAPI application are written as computations in a
    state-and-exception monad over the process-wide [ServerState]; the
    browser engine, the agent library and the operating system are
    consulted through the fields of an environment record [Env] and through
    the behaviour fields of the handles they hand out. *)

From Stdlib Require Import QArith Ascii String.
From stdpp Require Import gmap strings list fin_maps pretty.

Open Scope string_scope.

(** ** Python exceptions and the transport boundary *)

(** [HTTPException] is FastAPI's; every other exception class raised by
    the handlers or their collaborators is a [PyException] carrying the
    text of [str(e)]. *)
Inductive exn : Type :=
  | HTTPException (status_code : nat) (detail : string)
  | PyException (message : string).

(** [str(e)]: Starlette prints an [HTTPException] as "<status>: <detail>". *)
Definition str_exn (e : exn) : string :=
  match e with
  | HTTPException c d => pretty c +:+ ": " +:+ d
  | PyException m => m
  end.

(** [isinstance(e, HTTPException)] *)
Definition is_HTTPException (e : exn) : bool :=
  match e with
  | HTTPException _ _ => true
  | PyException _ => false
  end.

Inductive result (A : Type) : Type :=
  | Ok (a : A)
  | Raise (e : exn).
Arguments Ok {A} a.
Arguments Raise {A} e.

(** The status line the ASGI layer answers with: the status of a raised
    [HTTPException], 500 for any other exception that leaves a handler,
    200 for a returned value. *)
Definition transport_status {A} (r : result A) : nat :=
  match r with
  | Ok _ => 200
  | Raise (HTTPException c _) => c
  | Raise (PyException _) => 500
  end.

Inductive status_class : Type :=
  | Success
  | InvalidInput   (* 400-class *)
  | NotFound       (* 404-class *)
  | InternalFailure (* 500-class *)
  | OtherStatus.

Definition classify (status : nat) : status_class :=
  if decide (status = 200) then Success
  else if decide (status = 400) then InvalidInput
  else if decide (status = 404) then NotFound
  else if decide (status = 500) then InternalFailure
  else OtherStatus.

(** ** Request and response models *)

Record CreateSessionRequest : Type := {
  csr_session_id : option string;
  csr_headless : bool;
  csr_allowed_domains : list string;
  csr_wait_between_actions : Q;
}.

Record CloseSessionRequest : Type := { close_session_id : string }.

Record SessionResponse : Type := {
  sr_session_id : string;
  sr_status : string;
  sr_message : string;
}.

Record AgentTaskRequest : Type := {
  atr_task : string;
  atr_max_steps : Z;
  atr_model : string;
  atr_session_id : string;
}.

Record MessageResponse : Type := { message : string }.

Record MCPRequest (Parameters : Type) : Type := {
  tool_name : string;
  parameters : Parameters;
}.
Arguments tool_name {Parameters} _.
Arguments parameters {Parameters} _.

Record RetryWithAgentRequest : Type := {
  rwa_task : string;
  rwa_max_steps : Z;
  rwa_model : string;
  rwa_allowed_domains : list string;
  rwa_use_vision : bool;
  rwa_session_id : string;
}.

Record CredentialsResponse : Type := {
  cr_website : string;
  cr_email : string;
  cr_password : string;
  cr_session_id : string;
  cr_message : string;
}.

Record TaskResponse : Type := {
  tr_task_id : string;
  tr_status : string;
  tr_message : string;
  tr_session_id : string;
}.

Record SelectDropdownRequest : Type := {
  sdr_session_id : string;
  sdr_index : Z;
  sdr_text : string;
}.

Record PasswordGenerationRequest : Type := {
  pgr_website : string;
  pgr_email : string;
  pgr_session_id : string;
}.

Record AccountRetrievalRequest : Type := {
  arr_website : string;
  arr_email : string;
  arr_session_id : string;
}.

(** ** Collaborators: browser, frames, agent *)

Record BrowserProfile : Type := {
  downloads_path : string;
  wait_between_actions : Q;
  keep_alive : bool;
  user_data_dir : string;
  headless : bool;
  allowed_domains : list string;
}.

(** A node of a frame's document, as far as the two scripts evaluated by
    [select_dropdown_option] look at it. *)
Record DomNode : Type := {
  tagName : string;               (* element.tagName *)
  role : option string;           (* element.getAttribute('role') *)
  option_texts : list string;     (* o.text for o of element.options *)
  menu_items : list string;       (* item.textContent for item of
                                     querySelectorAll('[role="menuitem"], [role="option"]') *)
}.

(** A frame of the current page.  [document_evaluate] is the XPath lookup
    in the frame's document ([inl] is a thrown script error);
    [probe_raises] and [click_raises] make the first and the second
    [frame.evaluate] raise; [select_option] is Playwright's locator call
    [locator(selector).nth(0).select_option(label=..., timeout=1000)]. *)
Record Frame : Type := {
  frame_url : string;
  probe_raises : option string;
  click_raises : option string;
  document_evaluate : string → string + option DomNode;
  select_option : string → string → result (list string);
}.

Record DOMElementNode : Type := {
  xpath : string;
  tag_name : string;
  attributes : list (string * string);
}.

(** What a started browser hands back: its element map, the frames of the
    current page, and whether [stop()] will raise. *)
Record BrowserHandle : Type := {
  selector_map : gmap Z DOMElementNode;
  page_frames : list Frame;
  stop_raises : option string;
}.

Record BrowserSession : Type := {
  browser_profile : BrowserProfile;
  handle : BrowserHandle;
}.

Record Controller : Type := { registry_name : string }.
Record FileSystem : Type := { base_dir : string }.

Record ChatOpenAI : Type := {
  llm_model : string;
  llm_api_key : string;
  llm_temperature : Q;
}.

Record AgentHistoryList : Type := {
  history_steps : nat;                  (* len(history.history) *)
  is_successful : option bool;
  total_duration_seconds : Q;
  urls : list (option string);
  final_result : option string;
  errors : list (option string);
}.

(** What the agent library keeps inside an [Agent] object.  [running] and
    [state_history] are attributes the status handler probes with
    [hasattr]: [None] is an absent attribute.  [close_raises] makes
    [agent.close()] raise. *)
Record AgentInternals : Type := {
  running : option bool;
  state_history : option AgentHistoryList;
  close_raises : option string;
}.

Record Agent : Type := {
  agent_task : string;
  agent_llm : ChatOpenAI;
  agent_session : option BrowserSession;
  agent_profile : option BrowserProfile;
  agent_use_vision : option bool;
  internals : AgentInternals;
}.

(** ** Global state *)

Record Account : Type := { account_email : string; account_password : string }.

Abbreviation AccountStorage := (gmap string (gmap string (gmap string Account))).

(** [ServerState]: the dictionaries of the module-level singleton.  The
    values of [agents] are references into the heap of agent objects, since
    the background job keeps the object it was given whatever happens to
    the dictionary entry. *)
Record ServerState : Type := {
  browser_sessions : gmap string BrowserSession;
  agents : gmap string nat;
  controllers : gmap string Controller;
  file_systems : gmap string FileSystem;
  account_storage : AccountStorage;
}.

Inductive level : Type := DEBUG | INFO | ERROR.

(** A background job queued with [background_tasks.add_task]. *)
Record Job : Type := {
  job_task_id : string;
  job_agent : nat;
  job_max_steps : Z;
  job_closes_agent : bool;
}.

Record World : Type := {
  server_state : ServerState;
  agent_heap : nat → Agent;               (* the agent objects, by identity *)
  next_agent : nat;                       (* identity of the next object *)
  log : list (level * string);
  accounts_file : option AccountStorage;
  background_tasks : list Job;
}.

(** What one request observes of its surroundings. *)
Record Env : Type := {
  home : string;                          (* str(Path.home()) *)
  OPENAI_API_KEY : option string;         (* os.getenv('OPENAI_API_KEY') *)
  now_ms : N;                             (* int(time.time() * 1000) *)
  session_start : BrowserProfile → result BrowserHandle;  (* await session.start() *)
  Agent_init : AgentInternals;            (* what Agent.__init__ sets up *)
  agent_run : Agent → Z → AgentInternals * result AgentHistoryList;
                                          (* await agent.run(max_steps=...): what it
                                             leaves in the object, and its outcome *)
  accounts_file_error : option string;    (* what writing ~/.browser-use-api/accounts.json
                                             raises, if it does *)
  entropy : nat → nat;                    (* the system generator behind secrets: i-th draw *)
}.

(** ** The handler monad *)

Definition M (A : Type) : Type := World → result A * World.

Definition run {A} (m : M A) (w : World) : result A * World := m w.

Global Instance M_ret : MRet M := λ A a w, (Ok a, w).
Global Instance M_bind : MBind M := λ A B k m w,
  match m w with
  | (Ok a, w') => k a w'
  | (Raise e, w') => (Raise e, w')
  end.

Definition raise {A} (e : exn) : M A := λ w, (Raise e, w).

(** [try: body except Exception as e: handler e] *)
Definition try_except {A} (body : M A) (handler : exn → M A) : M A := λ w,
  match body w with
  | (Ok a, w') => (Ok a, w')
  | (Raise e, w') => handler e w'
  end.

Definition get_state : M ServerState := λ w, (Ok (server_state w), w).

Definition put_state (s : ServerState) : M unit := λ w,
  (Ok tt, {| server_state := s; agent_heap := agent_heap w;
             next_agent := next_agent w; log := log w;
             accounts_file := accounts_file w;
             background_tasks := background_tasks w |}).

Definition with_log (w : World) (l : list (level * string)) : World :=
  {| server_state := server_state w; agent_heap := agent_heap w;
     next_agent := next_agent w; log := l;
     accounts_file := accounts_file w;
     background_tasks := background_tasks w |}.

Definition logger (l : level) (msg : string) : M unit := λ w,
  (Ok tt, with_log w (log w ++ [(l, msg)])).

Definition get_agent (ref : nat) : M Agent := λ w, (Ok (agent_heap w ref), w).

Definition heap_store (heap : nat → Agent) (ref : nat) (a : Agent) : nat → Agent :=
  λ r, if decide (r = ref) then a else heap r.

(** Constructing an [Agent]: a new object with its own identity. *)
Definition alloc_agent (a : Agent) : M nat := λ w,
  (Ok (next_agent w),
   {| server_state := server_state w;
      agent_heap := heap_store (agent_heap w) (next_agent w) a;
      next_agent := S (next_agent w); log := log w;
      accounts_file := accounts_file w;
      background_tasks := background_tasks w |}).

(** An attribute write inside the agent library. *)
Definition set_agent (ref : nat) (a : Agent) : M unit := λ w,
  (Ok tt,
   {| server_state := server_state w;
      agent_heap := heap_store (agent_heap w) ref a;
      next_agent := next_agent w; log := log w;
      accounts_file := accounts_file w;
      background_tasks := background_tasks w |}).

(** [background_tasks.add_task(job)] *)
Definition add_task (job : Job) : M unit := λ w,
  (Ok tt,
   {| server_state := server_state w; agent_heap := agent_heap w;
      next_agent := next_agent w; log := log w;
      accounts_file := accounts_file w;
      background_tasks := background_tasks w ++ [job] |}).

Definition write_accounts_file (storage : AccountStorage) : M unit := λ w,
  (Ok tt,
   {| server_state := server_state w; agent_heap := agent_heap w;
      next_agent := next_agent w; log := log w;
      accounts_file := Some storage;
      background_tasks := background_tasks w |}).

Definition of_result {A} (r : result A) : M A := λ w, (r, w).

(** [await obj.close()] / [await session.stop()]: raises when the handle
    says so. *)
Definition await_unit (raises : option string) : M unit :=
  match raises with
  | Some msg => raise (PyException msg)
  | None => mret tt
  end.

(** Field updates of [ServerState]. *)
Definition set_browser_sessions (f : gmap string BrowserSession → gmap string BrowserSession)
    (s : ServerState) : ServerState :=
  {| browser_sessions := f (browser_sessions s); agents := agents s;
     controllers := controllers s; file_systems := file_systems s;
     account_storage := account_storage s |}.

Definition set_agents (f : gmap string nat → gmap string nat)
    (s : ServerState) : ServerState :=
  {| browser_sessions := browser_sessions s; agents := f (agents s);
     controllers := controllers s; file_systems := file_systems s;
     account_storage := account_storage s |}.

Definition set_controllers (f : gmap string Controller → gmap string Controller)
    (s : ServerState) : ServerState :=
  {| browser_sessions := browser_sessions s; agents := agents s;
     controllers := f (controllers s); file_systems := file_systems s;
     account_storage := account_storage s |}.

Definition set_file_systems (f : gmap string FileSystem → gmap string FileSystem)
    (s : ServerState) : ServerState :=
  {| browser_sessions := browser_sessions s; agents := agents s;
     controllers := controllers s; file_systems := f (file_systems s);
     account_storage := account_storage s |}.

Definition set_account_storage (f : AccountStorage → AccountStorage)
    (s : ServerState) : ServerState :=
  {| browser_sessions := browser_sessions s; agents := agents s;
     controllers := controllers s; file_systems := file_systems s;
     account_storage := f (account_storage s) |}.

Definition modify_state (f : ServerState → ServerState) : M unit :=
  s ← get_state; put_state (f s).

(** Python's [x or y] on an optional string: [None] and [""] are falsy. *)
Definition str_or (x : option string) (y : string) : string :=
  match x with
  | Some s => if decide (s = "") then y else s
  | None => y
  end.

(** Truthiness of an optional string ([if not api_key]). *)
Definition truthy_str (x : option string) : bool :=
  match x with
  | Some s => if decide (s = "") then false else true
  | None => false
  end.

(** ** Session registry *)

Section Handlers.
Context (env : Env).

(** [create_session], POST /sessions *)
Definition create_session (request : CreateSessionRequest) : M SessionResponse :=
  try_except
    (let session_id :=
       str_or (csr_session_id request) ("session_" +:+ pretty (now_ms env)) in
     s ← get_state;
     if decide (is_Some (browser_sessions s !! session_id)) then
       raise (HTTPException 400 ("Session " +:+ session_id +:+ " already exists"))
     else
       let profile :=
         {| downloads_path := home env +:+ "/Downloads/browser-use-api";
            wait_between_actions := csr_wait_between_actions request;
            keep_alive := true;
            user_data_dir := "~/.config/browseruse/profiles/api";
            headless := csr_headless request;
            allowed_domains := csr_allowed_domains request |} in
       h ← of_result (session_start env profile);
       let session := {| browser_profile := profile; handle := h |} in
       modify_state (set_browser_sessions (insert session_id session));;
       modify_state (set_controllers (insert session_id {| registry_name := "" |}));;
       modify_state (set_file_systems
         (insert session_id {| base_dir := home env +:+ "/.browser-use-api" |}));;
       logger INFO ("Created browser session " +:+ session_id);;
       mret {| sr_session_id := session_id;
               sr_status := "created";
               sr_message := "Browser session " +:+ session_id +:+ " created successfully" |})
    (λ e,
       logger ERROR ("Error creating session: " +:+ str_exn e);;
       raise (HTTPException 500 (str_exn e))).

(** [get_session]: the get-or-create helper of every page tool. *)
Definition get_session (session_id : string) : M BrowserSession :=
  s ← get_state;
  (if decide (is_Some (browser_sessions s !! session_id)) then mret tt
   else if decide (session_id = "default") then
     let default_request :=
       {| csr_session_id := Some "default";
          csr_headless := true;
          csr_allowed_domains := [];
          csr_wait_between_actions := (1 # 2)%Q |} in
     create_session default_request;; mret tt
   else raise (HTTPException 404 ("Session " +:+ session_id +:+ " not found")));;
  s' ← get_state;
  match browser_sessions s' !! session_id with
  | Some session => mret session
  | None => raise (PyException ("KeyError: " +:+ session_id))
  end.

(** [close_session], POST /sessions/close *)
Definition close_session (request : CloseSessionRequest) : M MessageResponse :=
  let session_id := close_session_id request in
  try_except
    (s ← get_state;
     match browser_sessions s !! session_id with
     | None => raise (HTTPException 404 ("Session " +:+ session_id +:+ " not found"))
     | Some _ =>
       (* Close agent if exists *)
       match agents s !! session_id with
       | Some ref =>
           agent ← get_agent ref;
           await_unit (close_raises (internals agent));;
           modify_state (set_agents (delete session_id))
       | None => mret tt
       end;;
       (* Close browser session *)
       s1 ← get_state;
       session ← match browser_sessions s1 !! session_id with
                 | Some session => mret session
                 | None => raise (PyException ("KeyError: " +:+ session_id))
                 end;
       await_unit (stop_raises (handle session));;
       modify_state (set_browser_sessions (delete session_id));;
       (* Clean up other resources *)
       modify_state (set_controllers (delete session_id));;
       modify_state (set_file_systems (delete session_id));;
       logger INFO ("Closed browser session " +:+ session_id);;
       mret {| message := "Session " +:+ session_id +:+ " closed successfully" |}
     end)
    (λ e,
       logger ERROR ("Error closing session " +:+ session_id +:+ ": " +:+ str_exn e);;
       raise (HTTPException 500 (str_exn e))).

(** ** Frame resolver *)

(** [String.prototype.toLowerCase] and [trim] on ASCII text. *)
Definition js_toLowerCase_ascii (c : ascii) : ascii :=
  let n := nat_of_ascii c in
  if decide (65 ≤ n ≤ 90)%nat then ascii_of_nat (n + 32) else c.

Fixpoint js_toLowerCase (s : string) : string :=
  match s with
  | EmptyString => EmptyString
  | String c s' => String (js_toLowerCase_ascii c) (js_toLowerCase s')
  end.

Definition js_is_space (c : ascii) : bool :=
  let n := nat_of_ascii c in
  bool_decide (n = 32 ∨ 9 ≤ n ≤ 13)%nat.

Fixpoint js_trim_start (s : string) : string :=
  match s with
  | EmptyString => EmptyString
  | String c s' => if js_is_space c then js_trim_start s' else s
  end.

(** Trailing white space: a character is dropped when it is white space
    and nothing but white space follows. *)
Fixpoint js_trim_end (s : string) : string :=
  match s with
  | EmptyString => EmptyString
  | String c s' =>
      match js_trim_end s' with
      | EmptyString => if js_is_space c then EmptyString else String c EmptyString
      | t => String c t
      end
  end.

Definition js_trim (s : string) : string := js_trim_end (js_trim_start s).

(** The value of a template placeholder holding a nullable string. *)
Definition js_show (x : option string) : string := default "null" x.

(** The object [element_info_js] returns. *)
Inductive ElementInfo : Type :=
  | SelectInfo (availableOptions : list string)          (* type: 'select', found: true *)
  | AriaInfo (role : string) (availableOptions : list string)  (* type: 'aria', found: true *)
  | ErrorInfo (error : string).                          (* found: false *)

(** [element_info_js]: [None] is the script's [null]. *)
Definition element_info_js (frame : Frame) (xpath : string) : option ElementInfo :=
  match document_evaluate frame xpath with
  | inl e => Some (ErrorInfo e)
  | inr None => None
  | inr (Some element) =>
      let tagName := js_toLowerCase (tagName element) in
      let role := role element in
      if decide (tagName = "select") then
        Some (SelectInfo (js_trim <$> option_texts element))
      else if decide (role = Some "menu" ∨ role = Some "listbox" ∨ role = Some "combobox") then
        Some (AriaInfo (js_show role) (js_trim <$> menu_items element))
      else
        Some (ErrorInfo ("Element is neither a select nor an ARIA menu (tag: "
                         +:+ tagName +:+ ", role: " +:+ js_show role +:+ ")"))
  end.

(** The object [click_aria_item_js] returns: [inr message] on success. *)
Fixpoint click_first_match (menuItems : list string) (targetText : string)
    : string + string :=
  match menuItems with
  | [] => inl ("Menu item with text '" +:+ targetText +:+ "' not found")
  | item :: rest =>
      let itemText := js_trim item in
      if decide (itemText = targetText) then inr ("Clicked menu item: " +:+ targetText)
      else click_first_match rest targetText
  end.

Definition click_aria_item_js (frame : Frame) (xpath targetText : string)
    : string + string :=
  match document_evaluate frame xpath with
  | inl e => inl e
  | inr None => inl "Element not found"
  | inr (Some element) => click_first_match (menu_items element) targetText
  end.

(** [await frame.evaluate(script, arg)] *)
Definition frame_evaluate {A} (raises : option string) (value : A) : M A :=
  match raises with
  | Some msg => raise (PyException msg)
  | None => mret value
  end.

(** How one pass through the body of [for frame in page.frames] ends. *)
Inductive flow : Type :=
  | Returned (response : MessageResponse)
  | Continued      (* [continue]: the increment of [frame_index] is skipped *)
  | FellThrough.   (* reaches [frame_index += 1] *)

Section FrameLoop.
Context (repr : list string → string).   (* Python's repr of a list of str *)
Context (dom_element : DOMElementNode) (text : string).

Definition frame_body (frame : Frame) (frame_index : nat) : M flow :=
  try_except
    (element_info ← frame_evaluate (probe_raises frame)
                      (element_info_js frame (xpath dom_element));
     match element_info with
     | Some (SelectInfo _) =>
         selected_option_values ←
           of_result (select_option frame ("//" +:+ xpath dom_element) text);
         let msg := "selected option " +:+ text +:+ " with value "
                    +:+ repr selected_option_values in
         logger INFO (msg +:+ " in frame " +:+ pretty frame_index);;
         mret (Returned {| message := msg |})
     | Some (AriaInfo _ _) =>
         result ← frame_evaluate (click_raises frame)
                    (click_aria_item_js frame (xpath dom_element) text);
         match result with
         | inr msg =>
             logger INFO (msg +:+ " in frame " +:+ pretty frame_index);;
             mret (Returned {| message := msg |})
         | inl error =>
             logger ERROR ("Failed to select ARIA menu item: " +:+ error);;
             mret Continued
         end
     | Some (ErrorInfo error) =>
         logger ERROR ("Frame " +:+ pretty frame_index +:+ " error: " +:+ error);;
         mret Continued
     | None => mret FellThrough
     end)
    (λ frame_e,
       logger ERROR ("Frame " +:+ pretty frame_index +:+ " attempt failed: "
                     +:+ str_exn frame_e);;
       logger ERROR "Frame type: <class 'playwright.async_api._generated.Frame'>";;
       logger ERROR ("Frame URL: " +:+ frame_url frame);;
       mret FellThrough).

Fixpoint frames_loop (frames : list Frame) (frame_index : nat) : M MessageResponse :=
  match frames with
  | [] =>
      let msg := "Could not select option '" +:+ text +:+ "' in any frame" in
      logger INFO msg;;
      mret {| message := msg |}
  | frame :: rest =>
      r ← frame_body frame frame_index;
      match r with
      | Returned response => mret response
      | Continued => frames_loop rest frame_index
      | FellThrough => frames_loop rest (S frame_index)
      end
  end.

(** The [try] block of [select_dropdown_option] with its handler. *)
Definition select_in_frames (frames : list Frame) : M MessageResponse :=
  try_except (frames_loop frames 0)
    (λ e,
       let msg := "Selection failed: " +:+ str_exn e in
       logger ERROR msg;;
       mret {| message := msg |}).

End FrameLoop.

(** [select_dropdown_option], POST /browser/select *)
Definition select_dropdown_option (repr : list string → string)
    (request : SelectDropdownRequest) : M MessageResponse :=
  browser_session ← get_session (sdr_session_id request);
  let index := sdr_index request in
  let text := sdr_text request in
  match selector_map (handle browser_session) !! index with
  | None =>
      raise (PyException ("Element index " +:+ pretty index
                          +:+ " does not exist - retry or use alternative actions"))
  | Some dom_element =>
      select_in_frames repr dom_element text (page_frames (handle browser_session))
  end.

(** ** Unified dispatcher *)

(** The handlers the branches of [mcp_endpoint] await. *)
Inductive Handler : Type :=
  | To_create_session | To_list_sessions | To_close_session
  | To_browser_navigate | To_browser_click | To_browser_type | To_browser_key
  | To_browser_scroll | To_get_browser_state | To_browser_extract_content
  | To_browser_go_back | To_browser_list_tabs | To_browser_switch_tab
  | To_browser_close_tab | To_run_agent_task | To_retry_with_browser_use_agent
  | To_get_agent_task_status | To_select_dropdown_option
  | To_generate_account_credentials | To_retrieve_account_credentials.

(** The [if tool_name == ... elif ...] chain of [mcp_endpoint]. *)
Definition route (tool_name : string) : option Handler :=
  if decide (tool_name = "create_browser_session") then Some To_create_session
  else if decide (tool_name = "list_browser_sessions") then Some To_list_sessions
  else if decide (tool_name = "close_browser_session") then Some To_close_session
  else if decide (tool_name = "browser_navigate") then Some To_browser_navigate
  else if decide (tool_name = "browser_click") then Some To_browser_click
  else if decide (tool_name = "browser_type") then Some To_browser_type
  else if decide (tool_name = "browser_key") then Some To_browser_key
  else if decide (tool_name = "browser_scroll") then Some To_browser_scroll
  else if decide (tool_name = "browser_get_state") then Some To_get_browser_state
  else if decide (tool_name = "browser_extract_content") then Some To_browser_extract_content
  else if decide (tool_name = "browser_go_back") then Some To_browser_go_back
  else if decide (tool_name = "browser_list_tabs") then Some To_browser_list_tabs
  else if decide (tool_name = "browser_switch_tab") then Some To_browser_switch_tab
  else if decide (tool_name = "browser_close_tab") then Some To_browser_close_tab
  else if decide (tool_name = "browse_agent") then Some To_run_agent_task
  else if decide (tool_name = "retry_browse_agent") then Some To_retry_with_browser_use_agent
  else if decide (tool_name = "get_agent_task_status") then Some To_get_agent_task_status
  else if decide (tool_name = "select_dropdown_option") then Some To_select_dropdown_option
  else if decide (tool_name = "generate_account_credentials")
    then Some To_generate_account_credentials
  else if decide (tool_name = "retrieve_account_credentials")
    then Some To_retrieve_account_credentials
  else None.

Section Dispatch.
Context {Parameters Response : Type}.
(** [call h parameters]: decode [parameters] with the request model of the
    branch and await its handler. *)
Context (call : Handler → Parameters → M Response).

(** [mcp_endpoint], POST /mcp *)
Definition mcp_endpoint (request : MCPRequest Parameters) : M Response :=
  try_except
    (match route (tool_name request) with
     | Some h => call h (parameters request)
     | None => raise (HTTPException 400 ("Unknown tool: " +:+ tool_name request))
     end)
    (λ e,
       logger ERROR ("Error in MCP endpoint for tool " +:+ tool_name request
                     +:+ ": " +:+ str_exn e);;
       if is_HTTPException e then raise e
       else raise (HTTPException 500 (str_exn e))).

End Dispatch.

(** [available_tools] of [mcp_get_endpoint], GET /mcp *)
Definition available_tools : list string :=
  [ (* Session management *)
    "create_browser_session";
    "list_browser_sessions";
    "close_browser_session";
    (* Browser control *)
    "browser_navigate";
    "browser_click";
    "browser_type";
    "browser_key";
    "browser_scroll";
    "browser_get_state";
    (* Content extraction *)
    "browser_extract_content";
    (* Navigation *)
    "browser_go_back";
    (* Tab management *)
    "browser_list_tabs";
    "browser_switch_tab";
    "browser_close_tab";
    (* Agent tasks *)
    "run_agent_task";
    "retry_with_browser_use_agent";
    "get_agent_task_status";
    (* Account management *)
    "generate_account_credentials";
    "retrieve_account_credentials" ].

(** ** Task orchestrator *)

(** [run_agent_task], POST /agent/task *)
Definition run_agent_task (request : AgentTaskRequest) : M TaskResponse :=
  try_except
    (session ← get_session (atr_session_id request);
     (* Get API key from environment *)
     let api_key := OPENAI_API_KEY env in
     if negb (truthy_str api_key) then
       raise (HTTPException 400 "OPENAI_API_KEY environment variable not set")
     else
       let llm := {| llm_model := atr_model request;
                     llm_api_key := default "" api_key;
                     llm_temperature := (7 # 10)%Q |} in
       (* Create agent *)
       agent ← alloc_agent {| agent_task := atr_task request;
                              agent_llm := llm;
                              agent_session := Some session;
                              agent_profile := None;
                              agent_use_vision := None;
                              internals := Agent_init env |};
       (* Store agent *)
       let task_id := "task_" +:+ pretty (now_ms env) in
       modify_state (set_agents (insert task_id agent));;
       (* Run agent in background *)
       add_task {| job_task_id := task_id; job_agent := agent;
                   job_max_steps := atr_max_steps request;
                   job_closes_agent := false |};;
       mret {| tr_task_id := task_id;
               tr_status := "started";
               tr_message := "Agent task " +:+ task_id +:+ " started";
               tr_session_id := atr_session_id request |})
    (λ e,
       logger ERROR ("Error running agent task: " +:+ str_exn e);;
       raise (HTTPException 500 (str_exn e))).

(** [retry_with_browser_use_agent], POST /browser/retry_with_agent *)
Definition retry_with_browser_use_agent (request : RetryWithAgentRequest) : M TaskResponse :=
  try_except
    (let api_key := OPENAI_API_KEY env in
     if negb (truthy_str api_key) then
       raise (HTTPException 400 "OPENAI_API_KEY environment variable not set")
     else
       let llm := {| llm_model := rwa_model request;
                     llm_api_key := default "" api_key;
                     llm_temperature := (7 # 10)%Q |} in
       let profile :=
         {| downloads_path := home env +:+ "/Downloads/browser-use-api";
            wait_between_actions := (1 # 2)%Q;
            keep_alive := true;
            user_data_dir := "~/.config/browseruse/profiles/api-agent";
            headless := true;
            allowed_domains := rwa_allowed_domains request |} in
       agent ← alloc_agent {| agent_task := rwa_task request;
                              agent_llm := llm;
                              agent_session := None;
                              agent_profile := Some profile;
                              agent_use_vision := Some (rwa_use_vision request);
                              internals := Agent_init env |};
       let task_id := "retry_task_" +:+ pretty (now_ms env) in
       modify_state (set_agents (insert task_id agent));;
       add_task {| job_task_id := task_id; job_agent := agent;
                   job_max_steps := rwa_max_steps request;
                   job_closes_agent := true |};;
       mret {| tr_task_id := task_id;
               tr_status := "started";
               tr_message := "Retry agent task " +:+ task_id +:+ " started with "
                             +:+ pretty (rwa_max_steps request) +:+ " max steps";
               tr_session_id := rwa_session_id request |})
    (λ e,
       logger ERROR ("Error running retry agent: " +:+ str_exn e);;
       raise (HTTPException 500 (str_exn e))).

(** The closure [run_agent] queued by [run_agent_task] ([job_closes_agent]
    false) and the closure [run_retry_agent] queued by
    [retry_with_browser_use_agent] ([job_closes_agent] true), as the server
    runs them after the response. *)
Definition py_str_bool (b : option bool) : string :=
  match b with
  | Some true => "True"
  | Some false => "False"
  | None => "None"
  end.

Definition run_job (job : Job) : M unit :=
  let task_id := job_task_id job in
  agent ← get_agent (job_agent job);
  let '(after, outcome) := agent_run env agent (job_max_steps job) in
  let agent' := {| agent_task := agent_task agent; agent_llm := agent_llm agent;
                   agent_session := agent_session agent;
                   agent_profile := agent_profile agent;
                   agent_use_vision := agent_use_vision agent;
                   internals := after |} in
  set_agent (job_agent job) agent';;
  if job_closes_agent job then
    match outcome with
    | Ok history =>
        logger INFO ("Retry agent task " +:+ task_id +:+ " completed. Success: "
                     +:+ py_str_bool (is_successful history))
    | Raise e =>
        logger ERROR ("Retry agent task " +:+ task_id +:+ " failed: " +:+ str_exn e)
    end;;
    (* Clean up agent *)
    try_except (await_unit (close_raises after))
      (λ e, logger ERROR ("Error closing retry agent " +:+ task_id +:+ ": " +:+ str_exn e))
  else
    match outcome with
    | Ok _ => logger INFO ("Agent task " +:+ task_id +:+ " completed successfully")
    | Raise e => logger ERROR ("Agent task " +:+ task_id +:+ " failed: " +:+ str_exn e)
    end.

Record HistoryInfo : Type := {
  steps_completed : nat;
  hi_is_successful : option bool;
  total_duration : Q;
  urls_visited : list string;
  hi_final_result : option string;        (* key present only when truthy *)
  hi_errors : option (list (option string));  (* key present only when truthy *)
}.

Record TaskStatusResponse : Type := {
  ts_task_id : string;
  ts_status : string;
  ts_history_info : option HistoryInfo;   (* [None]: no key beyond the two above *)
}.

(** [get_agent_task_status], GET /agent/task/{task_id} *)
Definition get_agent_task_status (task_id : string) : M TaskStatusResponse :=
  s ← get_state;
  match agents s !! task_id with
  | None => raise (HTTPException 404 ("Task " +:+ task_id +:+ " not found"))
  | Some ref =>
      agent ← get_agent ref;
      (* Check if agent is still running *)
      let is_running := default false (running (internals agent)) in
      (* Get history if available *)
      let history_info :=
        history ← state_history (internals agent);
        Some {| steps_completed := history_steps history;
                hi_is_successful := is_successful history;
                total_duration := total_duration_seconds history;
                urls_visited := omap id (urls history);
                hi_final_result :=
                  if truthy_str (final_result history) then final_result history else None;
                hi_errors :=
                  match errors history with [] => None | es => Some es end |} in
      mret {| ts_task_id := task_id;
              ts_status := if is_running then "running" else "completed";
              ts_history_info := history_info |}
  end.

(** ** Credential vault *)

(** [str.replace(old, new)]: occurrences of [old] are replaced from left
    to right without overlap.  [skip] counts the characters of a matched
    occurrence still to be dropped. *)
Fixpoint replace_from (old new : string) (skip : nat) (s : string) : string :=
  match s with
  | EmptyString => EmptyString
  | String c s' =>
      match skip with
      | S k => replace_from old new k s'
      | O =>
          if String.prefix old s
          then new +:+ replace_from old new (String.length old - 1) s'
          else String c (replace_from old new 0 s')
      end
  end.

Fixpoint intersperse_str (new s : string) : string :=
  match s with
  | EmptyString => new
  | String c s' => new +:+ String c (intersperse_str new s')
  end.

Definition str_replace (s old new : string) : string :=
  if decide (old = "") then intersperse_str new s else replace_from old new 0 s.

(** [s.split(sep)[0]] for a one-character separator. *)
Fixpoint split_head (sep : ascii) (s : string) : string :=
  match s with
  | EmptyString => EmptyString
  | String c s' => if decide (c = sep) then EmptyString else String c (split_head sep s')
  end.

Definition ascii_lowercase : string := "abcdefghijklmnopqrstuvwxyz".
Definition ascii_uppercase : string := "ABCDEFGHIJKLMNOPQRSTUVWXYZ".
Definition ascii_letters : string := ascii_lowercase +:+ ascii_uppercase.
Definition digits : string := "0123456789".

Global Instance result_ret : MRet result := λ A a, Ok a.
Global Instance result_bind : MBind result := λ A B k r,
  match r with
  | Ok a => k a
  | Raise e => Raise e
  end.

(** [secrets.choice(seq)], drawing the [i]-th number of the generator. *)
Definition secrets_choice (i : nat) (seq : string) : result ascii :=
  if decide (seq = "") then Raise (PyException "Cannot choose from an empty sequence")
  else
    match String.get (entropy env i mod String.length seq) seq with
    | Some c => Ok c
    | None => Raise (PyException "string index out of range")
    end.

(** [''.join(secrets.choice(alphabet) for i in range(length))], from draw
    [i] on. *)
Fixpoint join_choices (alphabet : string) (i length : nat) : result string :=
  match length with
  | O => Ok EmptyString
  | S n =>
      c ← secrets_choice i alphabet;
      rest ← join_choices alphabet (S i) n;
      Ok (String c rest)
  end.

(** [ServerState.generate_password] *)
Definition generate_password (length : nat) : result string :=
  let alphabet := ascii_letters +:+ digits +:+ "!@#$%^&*" in
  join_choices alphabet 0 length.

Definition default_password_length : nat := 16.

(** [ServerState._save_accounts_to_file] *)
Definition _save_accounts_to_file : M unit :=
  try_except
    (match accounts_file_error env with
     | None => s ← get_state; write_accounts_file (account_storage s)
     | Some msg => raise (PyException msg)
     end)
    (λ e, logger ERROR ("Error saving accounts to file: " +:+ str_exn e)).

(** [ServerState.store_account] *)
Definition store_account (session_id website email password : string) : M unit :=
  s ← get_state;
  let of_session := default ∅ (account_storage s !! session_id) in
  let of_website := default ∅ (of_session !! website) in
  let record := {| account_email := email; account_password := password |} in
  put_state (set_account_storage
    (insert session_id (<[website := <[email := record]> of_website]> of_session)) s);;
  (* Also save to file for persistence *)
  _save_accounts_to_file.

(** [ServerState.get_account] *)
Definition get_account (s : ServerState) (session_id website email : string)
    : option Account :=
  default ∅ (default ∅ (account_storage s !! session_id) !! website) !! email.

(** [generate_account_credentials], POST /account/generate *)
Definition generate_account_credentials (request : PasswordGenerationRequest)
    : M CredentialsResponse :=
  try_except
    ((* Normalize website URL *)
     let website :=
       split_head "/" (str_replace (str_replace (str_replace (pgr_website request)
         "https://" "") "http://" "") "www." "") in
     (* Use provided email and generate password *)
     let email := pgr_email request in
     password ← of_result (generate_password default_password_length);
     (* Store credentials *)
     store_account (pgr_session_id request) website email password;;
     logger INFO ("Generated credentials for " +:+ website +:+ " in session "
                  +:+ pgr_session_id request);;
     mret {| cr_website := website;
             cr_email := email;
             cr_password := password;
             cr_session_id := pgr_session_id request;
             cr_message := "Generated and stored credentials for " +:+ website |})
    (λ e,
       logger ERROR ("Error generating credentials: " +:+ str_exn e);;
       raise (HTTPException 500 (str_exn e))).

(** [retrieve_account_credentials], POST /account/retrieve *)
Definition retrieve_account_credentials (request : AccountRetrievalRequest)
    : M CredentialsResponse :=
  try_except
    ((* Normalize website URL *)
     let website :=
       split_head "/" (str_replace (str_replace (str_replace (arr_website request)
         "https://" "") "http://" "") "www." "") in
     (* Retrieve credentials *)
     s ← get_state;
     match get_account s (arr_session_id request) website (arr_email request) with
     | None =>
         raise (HTTPException 404
           ("No credentials found for " +:+ arr_email request +:+ " on " +:+ website
            +:+ " in session " +:+ arr_session_id request))
     | Some credentials =>
         logger INFO ("Retrieved credentials for " +:+ arr_email request +:+ " on "
                      +:+ website +:+ " in session " +:+ arr_session_id request);;
         mret {| cr_website := website;
                 cr_email := account_email credentials;
                 cr_password := account_password credentials;
                 cr_session_id := arr_session_id request;
                 cr_message := "Retrieved credentials for " +:+ arr_email request
                               +:+ " on " +:+ website |}
     end)
    (λ e,
       logger ERROR ("Error retrieving credentials: " +:+ str_exn e);;
       if is_HTTPException e then raise e
       else raise (HTTPException 500 (str_exn e))).

End Handlers.

(** ** Further handlers and helpers *)

Record BrowserClickRequest : Type := {
  bcr_index : Z;
  bcr_new_tab : bool;
  bcr_session_id : string;
}.

Record BrowserTypeRequest : Type := {
  btr_index : Z;
  btr_text : string;
  btr_session_id : string;
}.

Definition get_accounts_file : M (option AccountStorage) := λ w, (Ok (accounts_file w), w).

(** [ServerState._load_accounts_from_file].  The file exists when
    [accounts_file] holds a snapshot; [read_error] is what opening or
    decoding it raises, if it does. *)
Definition _load_accounts_from_file (read_error : option string) : M unit :=
  try_except
    (file ← get_accounts_file;
     match file with
     | Some stored =>
         match read_error with
         | Some msg => raise (PyException msg)
         | None => modify_state (set_account_storage (λ _, stored))
         end;;
         logger INFO "Loaded existing account storage from file"
     | None => mret tt
     end)
    (λ e,
       logger ERROR ("Error loading accounts from file: " +:+ str_exn e);;
       modify_state (set_account_storage (λ _, ∅))).

(** The two loops of [ServerState.cleanup], over the items of the
    dictionaries in the order given. *)
Fixpoint close_all_agents (items : list (string * nat)) : M unit :=
  match items with
  | [] => mret tt
  | (agent_id, ref) :: rest =>
      try_except
        (agent ← get_agent ref;
         await_unit (close_raises (internals agent));;
         logger DEBUG ("Closed agent " +:+ agent_id))
        (λ e, logger ERROR ("Error closing agent " +:+ agent_id +:+ ": " +:+ str_exn e));;
      close_all_agents rest
  end.

Fixpoint stop_all_sessions (items : list (string * BrowserSession)) : M unit :=
  match items with
  | [] => mret tt
  | (session_id, session) :: rest =>
      try_except
        (await_unit (stop_raises (handle session));;
         logger DEBUG ("Closed browser session " +:+ session_id))
        (λ e, logger ERROR ("Error closing browser session " +:+ session_id
                            +:+ ": " +:+ str_exn e));;
      stop_all_sessions rest
  end.

(** [ServerState.cleanup].  The items are enumerated in the order of the
    finite maps, not in the insertion order of the dictionaries. *)
Definition cleanup : M unit :=
  logger INFO "Cleaning up server state...";;
  s ← get_state;
  (* Close all agents *)
  close_all_agents (map_to_list (agents s));;
  (* Close all browser sessions *)
  stop_all_sessions (map_to_list (browser_sessions s)).

Section PageHandlers.
Context (env : Env).
(** [await session._click_element_node(element)] and
    [await session._input_text_element_node(element, text)]: what they
    raise, if they do. *)
Context (_click_element_node : BrowserSession → DOMElementNode → option string).
Context (_input_text_element_node :
           BrowserSession → DOMElementNode → string → option string).

(** [browser_click], POST /browser/click *)
Definition browser_click (request : BrowserClickRequest) : M MessageResponse :=
  try_except
    (session ← get_session env (bcr_session_id request);
     match selector_map (handle session) !! bcr_index request with
     | None =>
         raise (HTTPException 404 ("Element with index " +:+ pretty (bcr_index request)
                                   +:+ " not found"))
     | Some element =>
         await_unit (_click_element_node session element);;
         mret {| message := "Clicked element " +:+ pretty (bcr_index request) |}
     end)
    (λ e,
       logger ERROR ("Error clicking element: " +:+ str_exn e);;
       raise (HTTPException 500 (str_exn e))).

(** [browser_type], POST /browser/type *)
Definition browser_type (request : BrowserTypeRequest) : M MessageResponse :=
  try_except
    (session ← get_session env (btr_session_id request);
     match selector_map (handle session) !! btr_index request with
     | None =>
         raise (HTTPException 404 ("Element with index " +:+ pretty (btr_index request)
                                   +:+ " not found"))
     | Some element =>
         await_unit (_input_text_element_node session element (btr_text request));;
         mret {| message := "Typed '" +:+ btr_text request +:+ "' into element "
                            +:+ pretty (btr_index request) |}
     end)
    (λ e,
       logger ERROR ("Error typing text: " +:+ str_exn e);;
       raise (HTTPException 500 (str_exn e))).

End PageHandlers.

(** ** The demo clients: walking a reasoning tree *)

(** A task of the tree the model returns: its ["tooluse"] block, if the key
    is there, and its ["subtasks"], which are used only when they are a
    list. *)
Section ToolCalls.
Context {V : Type}.   (* the JSON values of a tool-use block *)

(** [subtasks] is [None] when the key is absent, null or not a list. *)
#[warnings="-register-all"]
Inductive Task : Type :=
  | MkTask (tooluse : option (gmap string V)) (subtasks : option (list Task)).

Record ToolCall : Type := {
  tc_tool_name : option V;
  tc_parameters : option V;
  tc_tool_result : option V;
}.

(** One pass through the body of [for t in tasks]: the value of [out]
    afterwards.  A block is truthy when it has a key. *)
Fixpoint collect_task (t : Task) (out : list ToolCall) : list ToolCall :=
  match t with
  | MkTask tooluse subtasks =>
      let out1 :=
        match tooluse with
        | Some block =>
            if decide (size block = 0%nat) then out
            else (out ++ [ {| tc_tool_name := block !! "tool_name";
                              tc_parameters := block !! "parameters";
                              tc_tool_result := block !! "tool_result" |} ])%list
        | None => out
        end in
      match subtasks with
      | None => out1
      | Some ts =>
          (fix walk (ts : list Task) (out : list ToolCall) : list ToolCall :=
             match ts with
             | [] => out
             | t' :: rest => walk rest (collect_task t' out)
             end) ts out1
      end
  end.

(** [collect_tool_calls(tasks, out)]: the value of [out] afterwards. *)
Fixpoint collect_tool_calls (tasks : list Task) (out : list ToolCall) : list ToolCall :=
  match tasks with
  | [] => out
  | t :: rest => collect_tool_calls rest (collect_task t out)
  end.

End ToolCalls.

(** * Vocabulary of the statements *)

(** The profile [get_session] builds for the session "default". *)
Definition default_profile (env : Env) : BrowserProfile :=
  {| downloads_path := home env +:+ "/Downloads/browser-use-api";
     wait_between_actions := (1 # 2)%Q;
     keep_alive := true;
     user_data_dir := "~/.config/browseruse/profiles/api";
     headless := true;
     allowed_domains := [] |}.

Definition default_session (env : Env) (h : BrowserHandle) : BrowserSession :=
  {| browser_profile := default_profile env; handle := h |}.

(** The world after [create_session] has registered [session] under [id]. *)
Definition registered (env : Env) (id : string) (session : BrowserSession) (w : World)
    : World :=
  with_log
    {| server_state :=
         {| browser_sessions := <[id := session]> (browser_sessions (server_state w));
            agents := agents (server_state w);
            controllers := <[id := {| registry_name := "" |}]> (controllers (server_state w));
            file_systems :=
              <[id := {| base_dir := home env +:+ "/.browser-use-api" |}]>
                (file_systems (server_state w));
            account_storage := account_storage (server_state w) |};
       agent_heap := agent_heap w;
       next_agent := next_agent w;
       log := log w;
       accounts_file := accounts_file w;
       background_tasks := background_tasks w |}
    (log w ++ [(INFO, "Created browser session " +:+ id)]).

(** Concrete surroundings used to exercise the statements below. *)
Definition quiet_handle : BrowserHandle :=
  {| selector_map := ∅; page_frames := []; stop_raises := None |}.

Definition idle_internals : AgentInternals :=
  {| running := None; state_history := None; close_raises := None |}.

Definition example_env (key : option string) : Env :=
  {| home := "/home/user";
     OPENAI_API_KEY := key;
     now_ms := 1730000000000%N;
     session_start := λ _, Ok quiet_handle;
     Agent_init := idle_internals;
     agent_run := λ agent _, (internals agent, Raise (PyException "model call failed"));
     accounts_file_error := None;
     entropy := λ i, (7 * i + 3)%nat |}.

Definition blank_agent : Agent :=
  {| agent_task := ""; agent_llm := {| llm_model := ""; llm_api_key := "";
                                        llm_temperature := 0%Q |};
     agent_session := None; agent_profile := None; agent_use_vision := None;
     internals := idle_internals |}.

Definition empty_state : ServerState :=
  {| browser_sessions := ∅; agents := ∅; controllers := ∅; file_systems := ∅;
     account_storage := ∅ |}.

Definition empty_world : World :=
  {| server_state := empty_state; agent_heap := λ _, blank_agent; next_agent := 0;
     log := []; accounts_file := None; background_tasks := [] |}.

(** A world in which the session [id] is registered with [session]. *)
Definition world_with_session (id : string) (session : BrowserSession) : World :=
  {| server_state := set_browser_sessions (insert id session) empty_state;
     agent_heap := λ _, blank_agent; next_agent := 0;
     log := []; accounts_file := None; background_tasks := [] |}.

Definition custom_session (h : BrowserHandle) : BrowserSession :=
  {| browser_profile :=
       {| downloads_path := "/home/user/Downloads/browser-use-api";
          wait_between_actions := (2 # 1)%Q; keep_alive := true;
          user_data_dir := "~/.config/browseruse/profiles/api";
          headless := false; allowed_domains := ["example.com"] |};
     handle := h |}.

(** The first teardown step of [close_session] that raises, if any: closing
    the agent registered under the session id, then stopping the browser. *)
Definition teardown_failure (w : World) (id : string) (session : BrowserSession)
    : option string :=
  match agents (server_state w) !! id with
  | Some ref =>
      match close_raises (internals (agent_heap w ref)) with
      | Some msg => Some msg
      | None => stop_raises (handle session)
      end
  | None => stop_raises (handle session)
  end.

Definition failing_handle : BrowserHandle :=
  {| selector_map := ∅; page_frames := []; stop_raises := Some "Target closed" |}.

(** What makes a frame yield no selection for the element [dom_element] and
    the text [text], in terms of the frame's document and of Playwright's
    answers. *)
Inductive frame_fails (dom_element : DOMElementNode) (text : string) (frame : Frame)
    : Prop :=
  | probe_fails msg :
      probe_raises frame = Some msg →
      frame_fails dom_element text frame
  | script_fails e :
      probe_raises frame = None →
      document_evaluate frame (xpath dom_element) = inl e →
      frame_fails dom_element text frame
  | element_absent :
      probe_raises frame = None →
      document_evaluate frame (xpath dom_element) = inr None →
      frame_fails dom_element text frame
  | element_unsupported node :
      probe_raises frame = None →
      document_evaluate frame (xpath dom_element) = inr (Some node) →
      js_toLowerCase (tagName node) ≠ "select" →
      ¬ (role node = Some "menu" ∨ role node = Some "listbox"
         ∨ role node = Some "combobox") →
      frame_fails dom_element text frame
  | no_option_selected node e :
      probe_raises frame = None →
      document_evaluate frame (xpath dom_element) = inr (Some node) →
      js_toLowerCase (tagName node) = "select" →
      select_option frame ("//" +:+ xpath dom_element) text = Raise e →
      frame_fails dom_element text frame
  | aria_click_fails node msg :
      probe_raises frame = None →
      document_evaluate frame (xpath dom_element) = inr (Some node) →
      js_toLowerCase (tagName node) ≠ "select" →
      (role node = Some "menu" ∨ role node = Some "listbox"
       ∨ role node = Some "combobox") →
      click_raises frame = Some msg →
      frame_fails dom_element text frame
  | no_menu_item_matches node :
      probe_raises frame = None →
      document_evaluate frame (xpath dom_element) = inr (Some node) →
      js_toLowerCase (tagName node) ≠ "select" →
      (role node = Some "menu" ∨ role node = Some "listbox"
       ∨ role node = Some "combobox") →
      click_raises frame = None →
      Forall (λ item, js_trim item ≠ text) (menu_items node) →
      frame_fails dom_element text frame.

(** A page with three frames: the element is absent from the main frame, a
    nested frame holds a [select] in which Playwright finds no option
    labelled "Blue", another one holds a listbox without such an item. *)
Definition colour_picker : DOMElementNode :=
  {| xpath := "html/body/div[2]/select"; tag_name := "select"; attributes := [] |}.

Definition main_frame : Frame :=
  {| frame_url := "https://shop.example/"; probe_raises := None; click_raises := None;
     document_evaluate := λ _, inr None;
     select_option := λ _ _, Raise (PyException "Timeout 1000ms exceeded.") |}.

Definition select_frame : Frame :=
  {| frame_url := "https://shop.example/picker"; probe_raises := None;
     click_raises := None;
     document_evaluate := λ _, inr (Some {| tagName := "SELECT"; role := None;
                                            option_texts := ["Red"; "Green"];
                                            menu_items := [] |});
     select_option := λ _ _, Raise (PyException "Timeout 1000ms exceeded.") |}.

Definition listbox_frame : Frame :=
  {| frame_url := "https://shop.example/menu"; probe_raises := None;
     click_raises := None;
     document_evaluate := λ _, inr (Some {| tagName := "DIV"; role := Some "listbox";
                                            option_texts := [];
                                            menu_items := [" Red "; "Green"] |});
     select_option := λ _ _, Raise (PyException "Timeout 1000ms exceeded.") |}.

Definition picker_handle : BrowserHandle :=
  {| selector_map := {[ 4%Z := colour_picker ]};
     page_frames := [main_frame; select_frame; listbox_frame];
     stop_raises := None |}.

(** The characters a password may hold: ASCII letters, digits, and the
    punctuation marks [!@#$%^&*]. *)
Definition ascii_letter (c : ascii) : bool :=
  let n := nat_of_ascii c in
  bool_decide ((65 ≤ n ≤ 90)%nat ∨ (97 ≤ n ≤ 122)%nat).

Definition ascii_digit (c : ascii) : bool :=
  let n := nat_of_ascii c in bool_decide (48 ≤ n ≤ 57)%nat.

Definition password_punctuation (c : ascii) : bool :=
  bool_decide (c ∈ list_ascii_of_string "!@#$%^&*").

Definition password_char (c : ascii) : bool :=
  ascii_letter c || ascii_digit c || password_punctuation c.

(** The website key both credential handlers compute. *)
Definition normalize_website (website : string) : string :=
  split_head "/" (str_replace (str_replace (str_replace website
    "https://" "") "http://" "") "www." "").

(** The agent object [run_agent_task] constructs and the job it queues. *)
Definition submitted_agent (env : Env) (request : AgentTaskRequest)
    (session : BrowserSession) : Agent :=
  {| agent_task := atr_task request;
     agent_llm := {| llm_model := atr_model request;
                     llm_api_key := default "" (OPENAI_API_KEY env);
                     llm_temperature := (7 # 10)%Q |};
     agent_session := Some session;
     agent_profile := None;
     agent_use_vision := None;
     internals := Agent_init env |}.

Definition submitted_job (env : Env) (request : AgentTaskRequest) (w : World) : Job :=
  {| job_task_id := "task_" +:+ pretty (now_ms env);
     job_agent := next_agent w;
     job_max_steps := atr_max_steps request;
     job_closes_agent := false |}.

(** The world [run_agent_task] leaves behind when it succeeds. *)
Definition submitted (env : Env) (request : AgentTaskRequest)
    (session : BrowserSession) (w : World) : World :=
  {| server_state :=
       set_agents (insert ("task_" +:+ pretty (now_ms env)) (next_agent w))
         (server_state w);
     agent_heap := heap_store (agent_heap w) (next_agent w)
                     (submitted_agent env request session);
     next_agent := S (next_agent w);
     log := log w;
     accounts_file := accounts_file w;
     background_tasks := background_tasks w ++ [submitted_job env request w] |}.

(** The status word [get_agent_task_status] derives from an agent object. *)
Definition status_of (agent : Agent) : string :=
  if default false (running (internals agent)) then "running" else "completed".

Definition form_task : AgentTaskRequest :=
  {| atr_task := "fill in the form"; atr_max_steps := 100;
     atr_model := "gpt-4o"; atr_session_id := "s1" |}.

(** The two halves of the task life cycle as C3 words them: the status
    polled right after a submission is "running"; when the run of the
    submitted job raises, the status polled afterwards is "failed". *)
Definition reports_running_after_submit : Prop :=
  ∀ (env : Env) (w : World) (request : AgentTaskRequest)
    (response : TaskResponse) (w1 : World),
    run (run_agent_task env request) w = (Ok response, w1) →
    ∃ st w1',
      run (get_agent_task_status (tr_task_id response)) w1 = (Ok st, w1')
      ∧ ts_status st = "running".

Definition reports_failed_after_error : Prop :=
  ∀ (env : Env) (w : World) (request : AgentTaskRequest)
    (response : TaskResponse) (w1 : World) (e : exn),
    run (run_agent_task env request) w = (Ok response, w1) →
    snd (agent_run env (agent_heap w1 (job_agent (submitted_job env request w)))
           (atr_max_steps request)) = Raise e →
    ∃ st w2',
      run (get_agent_task_status (tr_task_id response))
          (snd (run (run_job env (submitted_job env request w)) w1))
      = (Ok st, w2')
      ∧ ts_status st = "failed".


(** The profile [create_session] builds from a request. *)
Definition requested_profile (env : Env) (request : CreateSessionRequest)
    : BrowserProfile :=
  {| downloads_path := home env +:+ "/Downloads/browser-use-api";
     wait_between_actions := csr_wait_between_actions request;
     keep_alive := true;
     user_data_dir := "~/.config/browseruse/profiles/api";
     headless := csr_headless request;
     allowed_domains := csr_allowed_domains request |}.

(** The id [create_session] registers a request under. *)
Definition effective_id (env : Env) (request : CreateSessionRequest) : string :=
  str_or (csr_session_id request) ("session_" +:+ pretty (now_ms env)).

(** The tool name under which [mcp_endpoint] reaches a handler. *)
Definition tool_name_of (h : Handler) : string :=
  match h with
  | To_create_session => "create_browser_session"
  | To_list_sessions => "list_browser_sessions"
  | To_close_session => "close_browser_session"
  | To_browser_navigate => "browser_navigate"
  | To_browser_click => "browser_click"
  | To_browser_type => "browser_type"
  | To_browser_key => "browser_key"
  | To_browser_scroll => "browser_scroll"
  | To_get_browser_state => "browser_get_state"
  | To_browser_extract_content => "browser_extract_content"
  | To_browser_go_back => "browser_go_back"
  | To_browser_list_tabs => "browser_list_tabs"
  | To_browser_switch_tab => "browser_switch_tab"
  | To_browser_close_tab => "browser_close_tab"
  | To_run_agent_task => "browse_agent"
  | To_retry_with_browser_use_agent => "retry_browse_agent"
  | To_get_agent_task_status => "get_agent_task_status"
  | To_select_dropdown_option => "select_dropdown_option"
  | To_generate_account_credentials => "generate_account_credentials"
  | To_retrieve_account_credentials => "retrieve_account_credentials"
  end.

(** What makes a frame yield a selection, and the message it yields. *)
Inductive frame_selects (repr : list string → string) (dom_element : DOMElementNode)
    (text : string) (frame : Frame) : string → Prop :=
  | selects_option node values :
      probe_raises frame = None →
      document_evaluate frame (xpath dom_element) = inr (Some node) →
      js_toLowerCase (tagName node) = "select" →
      select_option frame ("//" +:+ xpath dom_element) text = Ok values →
      frame_selects repr dom_element text frame
        ("selected option " +:+ text +:+ " with value " +:+ repr values)
  | clicks_menu_item node :
      probe_raises frame = None →
      document_evaluate frame (xpath dom_element) = inr (Some node) →
      js_toLowerCase (tagName node) ≠ "select" →
      (role node = Some "menu" ∨ role node = Some "listbox"
       ∨ role node = Some "combobox") →
      click_raises frame = None →
      Exists (λ item, js_trim item = text) (menu_items node) →
      frame_selects repr dom_element text frame ("Clicked menu item: " +:+ text).

(** A nested frame whose [select] offers "Blue". *)
Definition blue_select_frame : Frame :=
  {| frame_url := "https://shop.example/colours"; probe_raises := None;
     click_raises := None;
     document_evaluate := λ _, inr (Some {| tagName := "SELECT"; role := None;
                                            option_texts := ["Red"; "Blue"];
                                            menu_items := [] |});
     select_option := λ _ label,
       if decide (label = "Blue") then Ok ["blue"]
       else Raise (PyException "Timeout 1000ms exceeded.") |}.

(** A process that has just started: nothing registered, an empty vault,
    and the accounts file as a previous process left it. *)
Definition restarted (file : option AccountStorage) : World :=
  {| server_state := empty_state; agent_heap := λ _, blank_agent; next_agent := 0;
     log := []; accounts_file := file; background_tasks := [] |}.

(** The entry a task contributes by itself: one call when its tool-use
    block has a key, nothing otherwise. *)
Definition own_tool_call {V : Type} (tooluse : option (gmap string V))
    : list (@ToolCall V) :=
  match tooluse with
  | Some block =>
      if decide (size block = 0%nat) then []
      else [ {| tc_tool_name := block !! "tool_name";
                tc_parameters := block !! "parameters";
                tc_tool_result := block !! "tool_result" |} ]
  | None => []
  end.

(** * Properties *)

(** ** Evaluating handlers *)

Ltac unfold_monad :=
  unfold run, modify_state, logger, of_result, await_unit, frame_evaluate,
    get_agent, alloc_agent, set_agent, add_task, write_accounts_file,
    get_state, put_state, try_except, raise,
    mbind, M_bind, mret, M_ret in *.

Ltac mstep := unfold_monad; cbn -[pretty String.append].

Lemma run_bind {A B} (m : M A) (k : A → M B) (w : World) :
  run (m ≫= k) w
  = match run m w with
    | (Ok a, w') => run (k a) w'
    | (Raise e, w') => (Raise e, w')
    end.
Proof. reflexivity. Qed.

Lemma run_try_except {A} (body : M A) (handler : exn → M A) (w : World) :
  run (try_except body handler) w
  = match run body w with
    | (Ok a, w') => (Ok a, w')
    | (Raise e, w') => run (handler e) w'
    end.
Proof. reflexivity. Qed.

Lemma with_log_server_state w l : server_state (with_log w l) = server_state w.
Proof. reflexivity. Qed.

Lemma transport_status_http {A} c d :
  transport_status (@Raise A (HTTPException c d)) = c.
Proof. reflexivity. Qed.

(** ** Session registry *)

Lemma get_session_registered env w id session :
  browser_sessions (server_state w) !! id = Some session →
  run (get_session env id) w = (Ok session, w).
Proof.
  intros Hreg. unfold get_session. mstep.
  destruct (decide (is_Some (browser_sessions (server_state w) !! id))) as [_|Hno].
  - cbn. rewrite Hreg. by destruct w.
  - exfalso. apply Hno. by exists session.
Qed.

Lemma get_session_unknown env w id :
  browser_sessions (server_state w) !! id = None →
  id ≠ "default" →
  run (get_session env id) w
  = (Raise (HTTPException 404 ("Session " +:+ id +:+ " not found")), w).
Proof.
  intros Hreg Hid. unfold get_session. mstep.
  destruct (decide (is_Some (browser_sessions (server_state w) !! id))) as [[x Hx]|_].
  - congruence.
  - destruct (decide (id = "default")); [done|]. reflexivity.
Qed.

Lemma create_session_fresh env w request id h :
  str_or (csr_session_id request) ("session_" +:+ pretty (now_ms env)) = id →
  browser_sessions (server_state w) !! id = None →
  session_start env
    {| downloads_path := home env +:+ "/Downloads/browser-use-api";
       wait_between_actions := csr_wait_between_actions request;
       keep_alive := true;
       user_data_dir := "~/.config/browseruse/profiles/api";
       headless := csr_headless request;
       allowed_domains := csr_allowed_domains request |} = Ok h →
  run (create_session env request) w
  = (Ok {| sr_session_id := id; sr_status := "created";
           sr_message := "Browser session " +:+ id +:+ " created successfully" |},
     registered env id
       {| browser_profile :=
            {| downloads_path := home env +:+ "/Downloads/browser-use-api";
               wait_between_actions := csr_wait_between_actions request;
               keep_alive := true;
               user_data_dir := "~/.config/browseruse/profiles/api";
               headless := csr_headless request;
               allowed_domains := csr_allowed_domains request |};
          handle := h |} w).
Proof.
  intros Hid Hfresh Hstart. unfold create_session. rewrite Hid. mstep.
  destruct (decide (is_Some (browser_sessions (server_state w) !! id))) as [[x Hx]|_].
  - congruence.
  - cbn -[pretty String.append]. rewrite Hstart. reflexivity.
Qed.

Lemma create_session_duplicate env w request id session :
  str_or (csr_session_id request) ("session_" +:+ pretty (now_ms env)) = id →
  browser_sessions (server_state w) !! id = Some session →
  run (create_session env request) w
  = (Raise (HTTPException 500 ("400: Session " +:+ id +:+ " already exists")),
     with_log w (log w ++ [(ERROR, "Error creating session: 400: Session " +:+ id
                                   +:+ " already exists")])).
Proof.
  intros Hid Hreg. unfold create_session. rewrite Hid. mstep.
  destruct (decide (is_Some (browser_sessions (server_state w) !! id))) as [_|Hno].
  - reflexivity.
  - exfalso. apply Hno. by exists session.
Qed.

Lemma get_session_default env w h :
  browser_sessions (server_state w) !! "default" = None →
  session_start env (default_profile env) = Ok h →
  run (get_session env "default") w
  = (Ok (default_session env h), registered env "default" (default_session env h) w).
Proof.
  intros Hfresh Hstart.
  pose proof (create_session_fresh env w
    {| csr_session_id := Some "default"; csr_headless := true;
       csr_allowed_domains := []; csr_wait_between_actions := (1 # 2)%Q |}
    "default" h eq_refl Hfresh Hstart) as Hcreate.
  unfold run in Hcreate |- *. unfold get_session.
  unfold mbind, M_bind, get_state at 1. cbn beta iota.
  destruct (decide (is_Some (browser_sessions (server_state w) !! "default")))
    as [[x Hx]|_]; [congruence|].
  destruct (decide ("default" = "default")) as [_|]; [|done].
  rewrite Hcreate. cbn -[pretty String.append].
  rewrite lookup_insert_eq. reflexivity.
Qed.

Lemma create_session_start_fails env w request id e :
  str_or (csr_session_id request) ("session_" +:+ pretty (now_ms env)) = id →
  browser_sessions (server_state w) !! id = None →
  session_start env
    {| downloads_path := home env +:+ "/Downloads/browser-use-api";
       wait_between_actions := csr_wait_between_actions request;
       keep_alive := true;
       user_data_dir := "~/.config/browseruse/profiles/api";
       headless := csr_headless request;
       allowed_domains := csr_allowed_domains request |} = Raise e →
  run (create_session env request) w
  = (Raise (HTTPException 500 (str_exn e)),
     with_log w (log w ++ [(ERROR, "Error creating session: " +:+ str_exn e)])).
Proof.
  intros Hid Hfresh Hstart. unfold create_session. rewrite Hid. mstep.
  destruct (decide (is_Some (browser_sessions (server_state w) !! id))) as [[x Hx]|_].
  - congruence.
  - cbn -[pretty String.append]. rewrite Hstart. reflexivity.
Qed.


(** C4. [get_session] (GetOrCreate) by cases: a registered id yields the
    registered session and leaves the world as it is, whatever that
    session's configuration; an unregistered "default" is created with the
    built-in defaults (headless, no allowed domains, 0.5 s between actions)
    once the browser has started, and registered together with its
    controller and workspace; any other unregistered id fails with the
    not-found status 404 and leaves the world as it is. *)
Theorem get_session_case_analysis (env : Env) (w : World) (id : string) :
  (∀ session,
     browser_sessions (server_state w) !! id = Some session →
     run (get_session env id) w = (Ok session, w))
  ∧ (browser_sessions (server_state w) !! id = None →
     id = "default" →
     ∀ h, session_start env (default_profile env) = Ok h →
       run (get_session env id) w
       = (Ok (default_session env h),
          registered env "default" (default_session env h) w)
       ∧ headless (browser_profile (default_session env h)) = true
       ∧ allowed_domains (browser_profile (default_session env h)) = []
       ∧ wait_between_actions (browser_profile (default_session env h)) = (1 # 2)%Q
       ∧ browser_sessions
           (server_state (registered env "default" (default_session env h) w))
         !! "default" = Some (default_session env h))
  ∧ (browser_sessions (server_state w) !! id = None →
     id ≠ "default" →
     ∃ detail,
       run (get_session env id) w = (Raise (HTTPException 404 detail), w)
       ∧ classify (transport_status (@Raise BrowserSession (HTTPException 404 detail)))
         = NotFound).
Proof.
  split; [|split].
  - intros session Hreg. by apply get_session_registered.
  - intros Hfresh -> h Hstart. split; [by apply get_session_default|].
    repeat split. cbn. apply lookup_insert_eq.
  - intros Hfresh Hid. eexists. split; [by apply get_session_unknown|reflexivity].
Qed.

Lemma get_session_case_analysis_witness :
  run (get_session (example_env None) "s1")
      (world_with_session "s1" (custom_session quiet_handle))
  = (Ok (custom_session quiet_handle),
     world_with_session "s1" (custom_session quiet_handle))
  ∧ fst (run (get_session (example_env None) "default") empty_world)
    = Ok (default_session (example_env None) quiet_handle)
  ∧ fst (run (get_session (example_env None) "s2") empty_world)
    = Raise (HTTPException 404 "Session s2 not found").
Proof.
  split; [|split].
  - apply (proj1 (get_session_case_analysis (example_env None)
                    (world_with_session "s1" (custom_session quiet_handle)) "s1")).
    reflexivity.
  - pose proof (proj1 (proj2 (get_session_case_analysis (example_env None)
                                empty_world "default"))) as Hdefault.
    rewrite (proj1 (Hdefault eq_refl eq_refl quiet_handle eq_refl)). reflexivity.
  - destruct (proj2 (proj2 (get_session_case_analysis (example_env None)
                              empty_world "s2")) eq_refl) as (detail & Hrun & _).
    + discriminate.
    + rewrite Hrun. cbn. unfold run, get_session in Hrun. vm_compute in Hrun.
      congruence.
Defined.

(** C5. An explicit Create ([create_session]) for a registered id: the
    handler raises the duplicate error with status 400 inside its own
    [try], its [except Exception] clause catches that error and raises it
    anew with status 500, so the caller is answered with the
    internal-failure class.  The registries are left as they were. *)
Theorem create_session_duplicate_answers_500
    (env : Env) (w : World) (request : CreateSessionRequest)
    (id : string) (session : BrowserSession) :
  csr_session_id request = Some id →
  id ≠ "" →
  browser_sessions (server_state w) !! id = Some session →
  ∃ w',
    run (create_session env request) w
    = (Raise (HTTPException 500 ("400: Session " +:+ id +:+ " already exists")), w')
    ∧ classify (transport_status (fst (run (create_session env request) w)))
      = InternalFailure
    ∧ classify (transport_status (fst (run (create_session env request) w)))
      ≠ InvalidInput
    ∧ server_state w' = server_state w
    ∧ browser_sessions (server_state w') !! id = Some session.
Proof.
  intros Hsome Hne Hreg.
  assert (str_or (csr_session_id request) ("session_" +:+ pretty (now_ms env)) = id)
    as Hid.
  { rewrite Hsome. unfold str_or. by destruct (decide (id = "")). }
  rewrite (create_session_duplicate env w request id session Hid Hreg).
  eexists. split; [reflexivity|]. cbn. repeat split; try done.
Qed.

Lemma create_session_duplicate_answers_500_witness :
  ∃ w',
    run (create_session (example_env None)
           {| csr_session_id := Some "s1"; csr_headless := true;
              csr_allowed_domains := []; csr_wait_between_actions := (1 # 2)%Q |})
        (world_with_session "s1" (custom_session quiet_handle))
    = (Raise (HTTPException 500 "400: Session s1 already exists"), w')
    ∧ browser_sessions (server_state w') !! "s1" = Some (custom_session quiet_handle).
Proof.
  destruct (create_session_duplicate_answers_500 (example_env None)
              (world_with_session "s1" (custom_session quiet_handle))
              {| csr_session_id := Some "s1"; csr_headless := true;
                 csr_allowed_domains := []; csr_wait_between_actions := (1 # 2)%Q |}
              "s1" (custom_session quiet_handle))
    as (w' & Hrun & _ & _ & _ & Hkept).
  - reflexivity.
  - discriminate.
  - reflexivity.
  - exists w'. split; [exact Hrun | exact Hkept].
Defined.

(** ** Closing a session *)

Lemma close_session_clean w id session :
  browser_sessions (server_state w) !! id = Some session →
  teardown_failure w id session = None →
  run (close_session {| close_session_id := id |}) w
  = (Ok {| message := "Session " +:+ id +:+ " closed successfully" |},
     with_log
       {| server_state :=
            {| browser_sessions := delete id (browser_sessions (server_state w));
               agents := delete id (agents (server_state w));
               controllers := delete id (controllers (server_state w));
               file_systems := delete id (file_systems (server_state w));
               account_storage := account_storage (server_state w) |};
          agent_heap := agent_heap w; next_agent := next_agent w; log := log w;
          accounts_file := accounts_file w;
          background_tasks := background_tasks w |}
       (log w ++ [(INFO, "Closed browser session " +:+ id)])).
Proof.
  intros Hreg Hclean. unfold teardown_failure in Hclean.
  unfold close_session. mstep. rewrite Hreg.
  destruct (agents (server_state w) !! id) as [ref|] eqn:Hagent.
  - cbn -[pretty String.append].
    destruct (close_raises (internals (agent_heap w ref))) as [msg|]; [done|].
    cbn -[pretty String.append]. rewrite Hreg, Hclean. reflexivity.
  - cbn -[pretty String.append]. rewrite Hreg, Hclean.
    cbn -[pretty String.append]. unfold with_log. cbn.
    rewrite (delete_id (agents (server_state w)) id Hagent). reflexivity.
Qed.

Lemma close_session_failing w id session msg :
  browser_sessions (server_state w) !! id = Some session →
  teardown_failure w id session = Some msg →
  ∃ w',
    run (close_session {| close_session_id := id |}) w
    = (Raise (HTTPException 500 msg), w')
    ∧ browser_sessions (server_state w') = browser_sessions (server_state w)
    ∧ log w' = (log w ++ [(ERROR, "Error closing session " +:+ id +:+ ": " +:+ msg)])%list.
Proof.
  intros Hreg Hfail. unfold teardown_failure in Hfail.
  unfold close_session. mstep. rewrite Hreg.
  destruct (agents (server_state w) !! id) as [ref|] eqn:Hagent.
  - cbn -[pretty String.append].
    destruct (close_raises (internals (agent_heap w ref))) as [msg'|].
    + injection Hfail as ->. eexists. split; [reflexivity|]. done.
    + cbn -[pretty String.append]. rewrite Hreg, Hfail.
      eexists. split; [reflexivity|]. done.
  - cbn -[pretty String.append]. rewrite Hreg, Hfail.
    eexists. split; [reflexivity|]. done.
Qed.

(** C2, as stated, fails: with the session "s1" registered and a browser
    handle whose [stop()] raises, [close_session] propagates the failure and
    "s1" is still registered afterwards. *)
Lemma close_session_best_effort_counterexample :
  ¬ (∀ (w : World) (id : string) (session : BrowserSession),
       browser_sessions (server_state w) !! id = Some session →
       ∃ response w',
         run (close_session {| close_session_id := id |}) w = (Ok response, w')
         ∧ browser_sessions (server_state w') !! id = None).
Proof.
  intros Hclaim.
  destruct (Hclaim (world_with_session "s1" (custom_session failing_handle))
              "s1" (custom_session failing_handle) eq_refl)
    as (response & w' & Hrun & _).
  vm_compute in Hrun. discriminate Hrun.
Qed.

(** C2, amended. For a registered id, [close_session] closes the agent
    registered under the id (if there is one), then stops the browser.  If
    neither step raises, the id is removed from the session, agent,
    controller and workspace registries and the call succeeds.  If a step
    raises, the failure is logged and propagated with status 500, and the
    session is still registered. *)
Theorem close_session_teardown (w : World) (id : string) (session : BrowserSession) :
  browser_sessions (server_state w) !! id = Some session →
  match teardown_failure w id session with
  | None =>
      ∃ response w',
        run (close_session {| close_session_id := id |}) w = (Ok response, w')
        ∧ browser_sessions (server_state w') !! id = None
        ∧ agents (server_state w') !! id = None
        ∧ controllers (server_state w') !! id = None
        ∧ file_systems (server_state w') !! id = None
  | Some msg =>
      ∃ w',
        run (close_session {| close_session_id := id |}) w
        = (Raise (HTTPException 500 msg), w')
        ∧ browser_sessions (server_state w') !! id = Some session
        ∧ (ERROR, "Error closing session " +:+ id +:+ ": " +:+ msg) ∈ log w'
  end.
Proof.
  intros Hreg. destruct (teardown_failure w id session) as [msg|] eqn:Hfail.
  - destruct (close_session_failing w id session msg Hreg Hfail)
      as (w' & Hrun & Hsessions & Hlog).
    exists w'. split; [done|]. split; [by rewrite Hsessions|].
    rewrite Hlog. apply elem_of_app. right. apply list_elem_of_singleton. done.
  - eexists _, _. split; [by apply (close_session_clean w id session)|].
    cbn. by rewrite !lookup_delete_eq.
Qed.

Lemma close_session_teardown_witness :
  (∃ w',
     run (close_session {| close_session_id := "s1" |})
         (world_with_session "s1" (custom_session failing_handle))
     = (Raise (HTTPException 500 "Target closed"), w')
     ∧ browser_sessions (server_state w') !! "s1" = Some (custom_session failing_handle))
  ∧ (∃ response w',
       run (close_session {| close_session_id := "s1" |})
           (world_with_session "s1" (custom_session quiet_handle))
       = (Ok response, w')
       ∧ browser_sessions (server_state w') !! "s1" = None).
Proof.
  split.
  - destruct (close_session_teardown
                (world_with_session "s1" (custom_session failing_handle))
                "s1" (custom_session failing_handle) eq_refl)
      as (w' & Hrun & Hkept & _).
    exists w'. split; [exact Hrun | exact Hkept].
  - destruct (close_session_teardown
                (world_with_session "s1" (custom_session quiet_handle))
                "s1" (custom_session quiet_handle) eq_refl)
      as (response & w' & Hrun & Hgone & _).
    exists response, w'. split; [exact Hrun | exact Hgone].
Defined.

(** ** Unified dispatcher *)

Lemma mcp_endpoint_unknown_tool {Parameters Response : Type}
    (call : Handler → Parameters → M Response) (request : MCPRequest Parameters) w :
  route (tool_name request) = None →
  run (mcp_endpoint call request) w
  = (Raise (HTTPException 400 ("Unknown tool: " +:+ tool_name request)),
     with_log w (log w ++ [(ERROR, "Error in MCP endpoint for tool " +:+ tool_name request
                                   +:+ ": 400: Unknown tool: " +:+ tool_name request)])).
Proof. intros Hroute. unfold mcp_endpoint. mstep. rewrite Hroute. reflexivity. Qed.

(** What [mcp_endpoint] makes of the outcome of the handler it routes to:
    a returned value and an [HTTPException] pass through, any other
    exception becomes an [HTTPException] with status 500. *)
Lemma mcp_endpoint_routed {Parameters Response : Type}
    (call : Handler → Parameters → M Response) (request : MCPRequest Parameters) h w :
  route (tool_name request) = Some h →
  fst (run (mcp_endpoint call request) w)
  = match fst (run (call h (parameters request)) w) with
    | Ok response => Ok response
    | Raise (HTTPException c d) => Raise (HTTPException c d)
    | Raise (PyException m) => Raise (HTTPException 500 m)
    end.
Proof.
  intros Hroute. unfold mcp_endpoint. mstep. rewrite Hroute.
  destruct (call h (parameters request) w) as [[response|[c d|m]] w']; reflexivity.
Qed.

Lemma in_available_tools (name : string) :
  bool_decide (name ∈ available_tools) = true → name ∈ available_tools.
Proof. apply bool_decide_eq_true. Qed.

Lemma not_in_available_tools (name : string) :
  bool_decide (name ∈ available_tools) = false → name ∉ available_tools.
Proof. apply bool_decide_eq_false. Qed.

(** The names on which the listing and the dispatcher agree. *)
Lemma listed_and_routed :
  Forall (λ name, name ∈ available_tools ∧ is_Some (route name))
    [ "create_browser_session"; "list_browser_sessions"; "close_browser_session";
      "browser_navigate"; "browser_click"; "browser_type"; "browser_key";
      "browser_scroll"; "browser_get_state"; "browser_extract_content";
      "browser_go_back"; "browser_list_tabs"; "browser_switch_tab";
      "browser_close_tab"; "get_agent_task_status";
      "generate_account_credentials"; "retrieve_account_credentials" ].
Proof.
  repeat (apply Forall_cons; split;
          [split; [by apply in_available_tools | by eexists] |]).
  apply Forall_nil. done.
Qed.

(** C1. The listing of GET /mcp and the routing of POST /mcp disagree on
    five names: "run_agent_task" and "retry_with_browser_use_agent" are
    listed but answered with "Unknown tool"; "browse_agent",
    "retry_browse_agent" and "select_dropdown_option" are routed to a handler
    but not listed.  So the two sets of names are not equal. *)
Theorem listing_differs_from_dispatch :
  ("run_agent_task" ∈ available_tools ∧ route "run_agent_task" = None)
  ∧ ("retry_with_browser_use_agent" ∈ available_tools
     ∧ route "retry_with_browser_use_agent" = None)
  ∧ (("browse_agent" ∉ available_tools)
     ∧ route "browse_agent" = Some To_run_agent_task)
  ∧ (("retry_browse_agent" ∉ available_tools)
     ∧ route "retry_browse_agent" = Some To_retry_with_browser_use_agent)
  ∧ (("select_dropdown_option" ∉ available_tools)
     ∧ route "select_dropdown_option" = Some To_select_dropdown_option)
  ∧ (∀ (Parameters Response : Type) (call : Handler → Parameters → M Response)
       (p : Parameters) (w : World),
       fst (run (mcp_endpoint call {| tool_name := "run_agent_task"; parameters := p |}) w)
       = Raise (HTTPException 400 "Unknown tool: run_agent_task"))
  ∧ ¬ (∀ name : string, name ∈ available_tools ↔ is_Some (route name)).
Proof.
  split; [split; [by apply in_available_tools | reflexivity]|].
  split; [split; [by apply in_available_tools | reflexivity]|].
  split; [split; [by apply not_in_available_tools | reflexivity]|].
  split; [split; [by apply not_in_available_tools | reflexivity]|].
  split; [split; [by apply not_in_available_tools | reflexivity]|].
  split.
  - intros Parameters Response call p w.
    by rewrite mcp_endpoint_unknown_tool.
  - intros Hequal.
    destruct (proj1 (Hequal "run_agent_task")) as [h Hh].
    + by apply in_available_tools.
    + discriminate Hh.
Qed.

(** ** Submitting an agent task without an API key *)

Lemma run_agent_task_no_key env w request session :
  truthy_str (OPENAI_API_KEY env) = false →
  browser_sessions (server_state w) !! atr_session_id request = Some session →
  run (run_agent_task env request) w
  = (Raise (HTTPException 500 "400: OPENAI_API_KEY environment variable not set"),
     with_log w
       (log w ++ [(ERROR, "Error running agent task: "
                          +:+ "400: OPENAI_API_KEY environment variable not set")])).
Proof.
  intros Hkey Hreg.
  pose proof (get_session_registered env w _ session Hreg) as Hget.
  unfold run in Hget |- *. unfold run_agent_task, try_except, mbind, M_bind.
  cbn beta. rewrite Hget, Hkey. reflexivity.
Qed.

(** C10. With [OPENAI_API_KEY] unset, submitting an agent task for a
    registered session is answered with status 500: the handler raises the
    status-400 error inside its own [try], and its [except Exception] clause
    raises it anew with status 500, directly and through [mcp_endpoint]
    alike.  No task id is generated: the registries, the agent objects and
    the queue of background jobs are as they were. *)
Theorem run_agent_task_without_key_answers_500
    (env : Env) (w : World) (request : AgentTaskRequest) (session : BrowserSession) :
  OPENAI_API_KEY env = None →
  browser_sessions (server_state w) !! atr_session_id request = Some session →
  ∃ w',
    run (run_agent_task env request) w
    = (Raise (HTTPException 500 "400: OPENAI_API_KEY environment variable not set"), w')
    ∧ classify (transport_status (fst (run (run_agent_task env request) w)))
      = InternalFailure
    ∧ classify (transport_status (fst (run (run_agent_task env request) w)))
      ≠ InvalidInput
    ∧ (∀ (Parameters : Type) (call : Handler → Parameters → M TaskResponse)
         (p : Parameters),
         call To_run_agent_task p = run_agent_task env request →
         fst (run (mcp_endpoint call {| tool_name := "browse_agent"; parameters := p |}) w)
         = Raise (HTTPException 500 "400: OPENAI_API_KEY environment variable not set"))
    ∧ server_state w' = server_state w
    ∧ agent_heap w' = agent_heap w
    ∧ next_agent w' = next_agent w
    ∧ background_tasks w' = background_tasks w.
Proof.
  intros Hkey Hreg.
  assert (truthy_str (OPENAI_API_KEY env) = false) as Hfalsy by by rewrite Hkey.
  pose proof (run_agent_task_no_key env w request session Hfalsy Hreg) as Hrun.
  eexists. split; [exact Hrun|]. rewrite Hrun. cbn -[String.append].
  repeat split; try done.
  intros Parameters call p Hcall.
  rewrite (mcp_endpoint_routed call _ To_run_agent_task) by reflexivity.
  cbn -[String.append]. rewrite Hcall. by rewrite Hrun.
Qed.

Lemma run_agent_task_without_key_answers_500_witness :
  ∃ w',
    run (run_agent_task (example_env None)
           {| atr_task := "fill in the form"; atr_max_steps := 100;
              atr_model := "gpt-4o"; atr_session_id := "s1" |})
        (world_with_session "s1" (custom_session quiet_handle))
    = (Raise (HTTPException 500 "400: OPENAI_API_KEY environment variable not set"), w')
    ∧ server_state w'
      = server_state (world_with_session "s1" (custom_session quiet_handle)).
Proof.
  destruct (run_agent_task_without_key_answers_500 (example_env None)
              (world_with_session "s1" (custom_session quiet_handle))
              {| atr_task := "fill in the form"; atr_max_steps := 100;
                 atr_model := "gpt-4o"; atr_session_id := "s1" |}
              (custom_session quiet_handle) eq_refl eq_refl)
    as (w' & Hrun & _ & _ & _ & Hstate & _).
  exists w'. split; [exact Hrun | exact Hstate].
Defined.

(** ** Selecting in a dropdown: the element index *)

Lemma select_dropdown_option_no_element env repr w request session :
  browser_sessions (server_state w) !! sdr_session_id request = Some session →
  selector_map (handle session) !! sdr_index request = None →
  run (select_dropdown_option env repr request) w
  = (Raise (PyException ("Element index " +:+ pretty (sdr_index request)
                         +:+ " does not exist - retry or use alternative actions")), w).
Proof.
  intros Hreg Habsent.
  pose proof (get_session_registered env w _ session Hreg) as Hget.
  unfold run in Hget |- *. unfold select_dropdown_option, mbind, M_bind.
  rewrite Hget, Habsent. reflexivity.
Qed.

(** C6. [select_dropdown_option] with an index that the session's element
    map does not hold raises a plain [Exception]: the route answers it with
    status 500, and [mcp_endpoint] turns it into an [HTTPException] with
    status 500.  Neither is the not-found status 404. *)
Theorem select_dropdown_option_absent_index_answers_500
    (env : Env) (repr : list string → string) (w : World)
    (request : SelectDropdownRequest) (session : BrowserSession) :
  browser_sessions (server_state w) !! sdr_session_id request = Some session →
  selector_map (handle session) !! sdr_index request = None →
  let answer := fst (run (select_dropdown_option env repr request) w) in
  answer = Raise (PyException ("Element index " +:+ pretty (sdr_index request)
                               +:+ " does not exist - retry or use alternative actions"))
  ∧ classify (transport_status answer) = InternalFailure
  ∧ classify (transport_status answer) ≠ NotFound
  ∧ (∀ (Parameters : Type) (call : Handler → Parameters → M MessageResponse)
       (p : Parameters),
       call To_select_dropdown_option p = select_dropdown_option env repr request →
       ∃ detail,
         fst (run (mcp_endpoint call
                     {| tool_name := "select_dropdown_option"; parameters := p |}) w)
         = Raise (HTTPException 500 detail)).
Proof.
  intros Hreg Habsent answer. subst answer.
  rewrite (select_dropdown_option_no_element env repr w request session Hreg Habsent).
  cbn -[String.append pretty]. repeat split; try done.
  intros Parameters call p Hcall. eexists.
  rewrite (mcp_endpoint_routed call _ To_select_dropdown_option) by reflexivity.
  cbn -[String.append pretty]. rewrite Hcall.
  rewrite (select_dropdown_option_no_element env repr w request session Hreg Habsent).
  reflexivity.
Qed.

Lemma select_dropdown_option_absent_index_answers_500_witness :
  fst (run (select_dropdown_option (example_env None) (λ _, "[]")
              {| sdr_session_id := "s1"; sdr_index := 7; sdr_text := "Blue" |})
           (world_with_session "s1" (custom_session quiet_handle)))
  = Raise (PyException
             "Element index 7 does not exist - retry or use alternative actions").
Proof.
  apply (select_dropdown_option_absent_index_answers_500 (example_env None) (λ _, "[]")
           (world_with_session "s1" (custom_session quiet_handle))
           {| sdr_session_id := "s1"; sdr_index := 7; sdr_text := "Blue" |}
           (custom_session quiet_handle) eq_refl eq_refl).
Defined.

(** ** Frame resolver: no frame yields a selection *)

Lemma click_first_match_none (menuItems : list string) (targetText : string) :
  Forall (λ item, js_trim item ≠ targetText) menuItems →
  click_first_match menuItems targetText
  = inl ("Menu item with text '" +:+ targetText +:+ "' not found").
Proof.
  induction 1 as [|item rest Hitem _ IH]; [reflexivity|].
  cbn -[String.append]. by destruct (decide (js_trim item = targetText)).
Qed.

Lemma click_first_match_some (menuItems : list string) (targetText : string) :
  Exists (λ item, js_trim item = targetText) menuItems →
  click_first_match menuItems targetText = inr ("Clicked menu item: " +:+ targetText).
Proof.
  induction 1 as [item rest Hitem|item rest _ IH]; cbn -[String.append];
    by destruct (decide (js_trim item = targetText)).
Qed.

Lemma with_log_with_log w l1 l2 : with_log (with_log w l1) l2 = with_log w l2.
Proof. reflexivity. Qed.

Lemma with_log_self w : with_log w (log w) = w.
Proof. by destruct w. Qed.

Section FrameFacts.
Context (repr : list string → string) (dom_element : DOMElementNode) (text : string).

(** A failing frame ends its pass through the loop body without a response
    and without touching anything but the log. *)
Lemma frame_body_fails frame frame_index w :
  frame_fails dom_element text frame →
  ∃ l, run (frame_body repr dom_element text frame frame_index) w
       = (Ok Continued, with_log w l)
     ∨ run (frame_body repr dom_element text frame frame_index) w
       = (Ok FellThrough, with_log w l).
Proof.
  intros Hfails. unfold frame_body, element_info_js, click_aria_item_js.
  destruct Hfails as
    [msg Hp | e Hp Hdoc | Hp Hdoc | node Hp Hdoc Htag Hrole | node e Hp Hdoc Htag Hsel
     | node msg Hp Hdoc Htag Hrole Hclick | node Hp Hdoc Htag Hrole Hclick Hitems];
    mstep; rewrite Hp; mstep; try rewrite Hdoc; mstep.
  - eexists. right. reflexivity.
  - eexists. left. reflexivity.
  - exists (log w). right. by rewrite with_log_self.
  - destruct (decide (js_toLowerCase (tagName node) = "select")); [done|].
    destruct (decide _); [done|]. mstep. eexists. left. reflexivity.
  - destruct (decide (js_toLowerCase (tagName node) = "select")); [|done].
    mstep. rewrite Hsel. eexists. right. reflexivity.
  - destruct (decide (js_toLowerCase (tagName node) = "select")); [done|].
    destruct (decide _); [|done]. mstep. rewrite Hclick.
    eexists. right. reflexivity.
  - destruct (decide (js_toLowerCase (tagName node) = "select")); [done|].
    destruct (decide _); [|done]. mstep. rewrite Hclick. mstep.
    rewrite (click_first_match_none _ _ Hitems). eexists. left. reflexivity.
Qed.

Lemma frames_loop_all_fail frames frame_index w :
  Forall (frame_fails dom_element text) frames →
  ∃ l, run (frames_loop repr dom_element text frames frame_index) w
       = (Ok {| message := "Could not select option '" +:+ text +:+ "' in any frame" |},
          with_log w l).
Proof.
  intros Hall. revert frame_index w.
  induction Hall as [|frame rest Hframe _ IH]; intros frame_index w.
  - eexists. reflexivity.
  - cbn [frames_loop]. rewrite run_bind.
    destruct (frame_body_fails frame frame_index w Hframe) as [l [Hbody|Hbody]];
      rewrite Hbody.
    + destruct (IH frame_index (with_log w l)) as [l' Hrest].
      exists l'. by rewrite Hrest.
    + destruct (IH (S frame_index) (with_log w l)) as [l' Hrest].
      exists l'. by rewrite Hrest.
Qed.

Lemma select_in_frames_all_fail frames w :
  Forall (frame_fails dom_element text) frames →
  ∃ l, run (select_in_frames repr dom_element text frames) w
       = (Ok {| message := "Could not select option '" +:+ text +:+ "' in any frame" |},
          with_log w l).
Proof.
  intros Hall. destruct (frames_loop_all_fail frames 0 w Hall) as [l Hloop].
  exists l. unfold select_in_frames. by rewrite run_try_except, Hloop.
Qed.

End FrameFacts.


(** C8. With the session registered and the element index resolved, if
    every frame of the current page fails to yield a selection (the probe
    raises or reports a script error, the element is absent from the frame,
    it is neither a [select] nor an ARIA menu, Playwright selects no option,
    the click script raises, or no menu item has the text), then
    [select_dropdown_option] returns the message "Could not select option
    '<text>' in any frame" instead of raising, and changes nothing but the
    log. *)
Theorem select_dropdown_option_no_frame_selects
    (env : Env) (repr : list string → string) (w : World)
    (request : SelectDropdownRequest) (session : BrowserSession)
    (dom_element : DOMElementNode) :
  browser_sessions (server_state w) !! sdr_session_id request = Some session →
  selector_map (handle session) !! sdr_index request = Some dom_element →
  Forall (frame_fails dom_element (sdr_text request)) (page_frames (handle session)) →
  ∃ l,
    run (select_dropdown_option env repr request) w
    = (Ok {| message := "Could not select option '" +:+ sdr_text request
                        +:+ "' in any frame" |},
       with_log w l).
Proof.
  intros Hreg Helement Hall.
  destruct (select_in_frames_all_fail repr dom_element (sdr_text request)
              (page_frames (handle session)) w Hall) as [l Hselect].
  exists l. unfold select_dropdown_option. rewrite run_bind.
  rewrite (get_session_registered env w _ session Hreg).
  rewrite Helement. exact Hselect.
Qed.

Lemma select_dropdown_option_no_frame_selects_witness :
  ∃ l,
    run (select_dropdown_option (example_env None) (λ _, "[]")
           {| sdr_session_id := "s1"; sdr_index := 4; sdr_text := "Blue" |})
        (world_with_session "s1" (custom_session picker_handle))
    = (Ok {| message := "Could not select option 'Blue' in any frame" |},
       with_log (world_with_session "s1" (custom_session picker_handle)) l).
Proof.
  apply (select_dropdown_option_no_frame_selects (example_env None) (λ _, "[]")
           (world_with_session "s1" (custom_session picker_handle))
           {| sdr_session_id := "s1"; sdr_index := 4; sdr_text := "Blue" |}
           (custom_session picker_handle) colour_picker).
  - reflexivity.
  - reflexivity.
  - apply Forall_cons_2; [by apply element_absent|].
    apply Forall_cons_2; [by eapply no_option_selected|].
    apply Forall_cons_2; [|apply Forall_nil_2].
    eapply no_menu_item_matches; try reflexivity.
    + discriminate.
    + right. by left.
    + apply Forall_cons_2; [discriminate|].
      apply Forall_cons_2; [discriminate|apply Forall_nil_2].
Defined.

(** ** Credential vault: generated passwords *)

Lemma string_get_In (s : string) (n : nat) (c : ascii) :
  String.get n s = Some c → In c (list_ascii_of_string s).
Proof.
  revert n. induction s as [|a s IH]; intros n Hget; [discriminate|].
  destruct n as [|n]; cbn in Hget |- *.
  - left. congruence.
  - right. by eapply IH.
Qed.

Lemma string_get_lt (s : string) (n : nat) :
  (n < String.length s)%nat → ∃ c, String.get n s = Some c.
Proof.
  revert n. induction s as [|a s IH]; intros n Hlt; cbn in Hlt; [lia|].
  destruct n as [|n]; cbn.
  - by exists a.
  - apply IH. lia.
Qed.

Lemma secrets_choice_in env i seq :
  seq ≠ "" →
  ∃ c, secrets_choice env i seq = Ok c ∧ In c (list_ascii_of_string seq).
Proof.
  intros Hseq. unfold secrets_choice. destruct (decide (seq = "")); [done|].
  assert (0 < String.length seq)%nat as Hpos.
  { destruct seq; [done|cbn; lia]. }
  destruct (string_get_lt seq (entropy env i mod String.length seq)) as [c Hc].
  { apply Nat.mod_upper_bound. lia. }
  rewrite Hc. exists c. split; [done|]. by eapply string_get_In.
Qed.

Lemma join_choices_spec env alphabet i length :
  alphabet ≠ "" →
  ∃ password,
    join_choices env alphabet i length = Ok password
    ∧ String.length password = length
    ∧ Forall (λ c, In c (list_ascii_of_string alphabet)) (list_ascii_of_string password).
Proof.
  intros Halphabet. revert i. induction length as [|n IH]; intros i.
  - exists "". repeat split. apply Forall_nil_2.
  - destruct (secrets_choice_in env i alphabet Halphabet) as (c & Hc & Hin).
    destruct (IH (S i)) as (rest & Hrest & Hlen & Hall).
    exists (String c rest). cbn [join_choices].
    unfold mbind, result_bind. rewrite Hc, Hrest. cbn.
    repeat split; [by rewrite Hlen|]. by apply Forall_cons_2.
Qed.

Lemma alphabet_password_chars :
  forallb password_char
    (list_ascii_of_string (ascii_letters +:+ digits +:+ "!@#$%^&*")) = true.
Proof. vm_compute. reflexivity. Qed.

Lemma generate_password_spec env length :
  ∃ password,
    generate_password env length = Ok password
    ∧ String.length password = length
    ∧ Forall (λ c, password_char c = true) (list_ascii_of_string password).
Proof.
  destruct (join_choices_spec env (ascii_letters +:+ digits +:+ "!@#$%^&*") 0 length)
    as (password & Hgen & Hlen & Hall); [discriminate|].
  exists password. repeat split; try done.
  eapply Forall_impl; [exact Hall|]. intros c Hin. cbn beta in Hin.
  pose proof alphabet_password_chars as Hchars.
  rewrite forallb_forall in Hchars. by apply Hchars.
Qed.

(** [generate_account_credentials] never fails: it answers with the
    generated password and stores the record under the normalized website. *)
Lemma generate_account_credentials_run env request w password :
  generate_password env default_password_length = Ok password →
  ∃ w',
    run (generate_account_credentials env request) w
    = (Ok {| cr_website := normalize_website (pgr_website request);
             cr_email := pgr_email request;
             cr_password := password;
             cr_session_id := pgr_session_id request;
             cr_message := "Generated and stored credentials for "
                           +:+ normalize_website (pgr_website request) |}, w')
    ∧ get_account (server_state w') (pgr_session_id request)
        (normalize_website (pgr_website request)) (pgr_email request)
      = Some {| account_email := pgr_email request; account_password := password |}
    ∧ browser_sessions (server_state w') = browser_sessions (server_state w)
    ∧ agents (server_state w') = agents (server_state w).
Proof.
  intros Hgen. unfold generate_account_credentials, store_account,
    _save_accounts_to_file.
  fold (normalize_website (pgr_website request)).
  unfold_monad. cbn beta. rewrite Hgen. cbn beta iota.
  destruct (accounts_file_error env) as [msg|];
    (eexists; split; [reflexivity|]);
    cbn -[normalize_website]; unfold get_account; cbn -[normalize_website];
    rewrite !lookup_insert_eq; cbn -[normalize_website];
    rewrite !lookup_insert_eq; cbn -[normalize_website];
    by rewrite !lookup_insert_eq.
Qed.

(** C9. Credential generation always answers, and the password it returns
    is the one [generate_password] made with the default length: it has
    exactly 16 characters, each an ASCII letter, a digit, or one of the
    punctuation marks [!@#$%^&*]. *)
Theorem generated_password_shape
    (env : Env) (request : PasswordGenerationRequest) (w : World) :
  ∃ response w',
    run (generate_account_credentials env request) w = (Ok response, w')
    ∧ generate_password env default_password_length = Ok (cr_password response)
    ∧ String.length (cr_password response) = 16%nat
    ∧ Forall (λ c, password_char c = true)
        (list_ascii_of_string (cr_password response)).
Proof.
  destruct (generate_password_spec env default_password_length)
    as (password & Hgen & Hlen & Hall).
  destruct (generate_account_credentials_run env request w password Hgen)
    as (w' & Hrun & _).
  eexists _, w'. split; [exact Hrun|]. cbn. done.
Qed.

(** ** Credential vault: round trip *)

Lemma retrieve_account_credentials_found request w account :
  get_account (server_state w) (arr_session_id request)
    (normalize_website (arr_website request)) (arr_email request) = Some account →
  ∃ w',
    run (retrieve_account_credentials request) w
    = (Ok {| cr_website := normalize_website (arr_website request);
             cr_email := account_email account;
             cr_password := account_password account;
             cr_session_id := arr_session_id request;
             cr_message := "Retrieved credentials for " +:+ arr_email request
                           +:+ " on " +:+ normalize_website (arr_website request) |}, w')
    ∧ server_state w' = server_state w.
Proof.
  intros Hfound. unfold retrieve_account_credentials.
  fold (normalize_website (arr_website request)).
  unfold_monad. cbn beta. rewrite Hfound. eexists. split; reflexivity.
Qed.

Lemma retrieve_account_credentials_missing request w :
  get_account (server_state w) (arr_session_id request)
    (normalize_website (arr_website request)) (arr_email request) = None →
  ∃ detail w',
    run (retrieve_account_credentials request) w
    = (Raise (HTTPException 404 detail), w')
    ∧ server_state w' = server_state w.
Proof.
  intros Hmissing. unfold retrieve_account_credentials.
  fold (normalize_website (arr_website request)).
  unfold_monad. cbn beta. rewrite Hmissing. eexists _, _. split; reflexivity.
Qed.

Lemma normalize_login_url : normalize_website "https://www.foo.com/login" = "foo.com".
Proof. reflexivity. Qed.

Lemma normalize_bare_domain : normalize_website "foo.com" = "foo.com".
Proof. reflexivity. Qed.

(** Generation followed by retrieval under any two spellings of the website
    with the same normal form. *)
Lemma generate_then_retrieve env w session_id email website website' :
  normalize_website website = normalize_website website' →
  ∃ generated w1 retrieved w2,
    run (generate_account_credentials env
           {| pgr_website := website; pgr_email := email;
              pgr_session_id := session_id |}) w
    = (Ok generated, w1)
    ∧ run (retrieve_account_credentials
             {| arr_website := website'; arr_email := email;
                arr_session_id := session_id |}) w1
      = (Ok retrieved, w2)
    ∧ cr_password retrieved = cr_password generated
    ∧ cr_email retrieved = email
    ∧ cr_website generated = normalize_website website
    ∧ cr_website retrieved = normalize_website website.
Proof.
  intros Hsame.
  destruct (generate_password_spec env default_password_length)
    as (password & Hgen & _).
  destruct (generate_account_credentials_run env
              {| pgr_website := website; pgr_email := email;
                 pgr_session_id := session_id |} w password Hgen)
    as (w1 & Hrun1 & Hstored & _).
  cbn [pgr_website pgr_email pgr_session_id] in Hstored.
  destruct (retrieve_account_credentials_found
              {| arr_website := website'; arr_email := email;
                 arr_session_id := session_id |} w1
              {| account_email := email; account_password := password |})
    as (w2 & Hrun2 & _).
  { cbn [arr_website arr_email arr_session_id]. by rewrite <- Hsame. }
  eexists _, w1, _, w2. split; [exact Hrun1|]. split; [exact Hrun2|].
  cbn [cr_password cr_email cr_website arr_website pgr_website
       account_email account_password].
  by rewrite Hsame.
Qed.

(** C7. For every session id and email, generating credentials for
    "https://www.foo.com/login" and then retrieving them for "foo.com"
    succeeds and returns the generated password: both spellings are
    normalized to the key "foo.com". *)
Theorem credential_round_trip (env : Env) (w : World) (session_id email : string) :
  ∃ generated w1 retrieved w2,
    run (generate_account_credentials env
           {| pgr_website := "https://www.foo.com/login"; pgr_email := email;
              pgr_session_id := session_id |}) w
    = (Ok generated, w1)
    ∧ run (retrieve_account_credentials
             {| arr_website := "foo.com"; arr_email := email;
                arr_session_id := session_id |}) w1
      = (Ok retrieved, w2)
    ∧ cr_password retrieved = cr_password generated
    ∧ cr_email retrieved = email
    ∧ cr_website generated = "foo.com"
    ∧ cr_website retrieved = "foo.com".
Proof.
  destruct (generate_then_retrieve env w session_id email
              "https://www.foo.com/login" "foo.com" eq_refl)
    as (generated & w1 & retrieved & w2 & Hrun1 & Hrun2 & Hpassword & Hemail
        & Hsite & Hsite').
  exists generated, w1, retrieved, w2.
  rewrite normalize_login_url in Hsite, Hsite'. done.
Qed.

(** ** Task orchestrator: submission and status *)

Lemma run_agent_task_started env w request session :
  truthy_str (OPENAI_API_KEY env) = true →
  browser_sessions (server_state w) !! atr_session_id request = Some session →
  run (run_agent_task env request) w
  = (Ok {| tr_task_id := "task_" +:+ pretty (now_ms env);
           tr_status := "started";
           tr_message := "Agent task " +:+ ("task_" +:+ pretty (now_ms env))
                         +:+ " started";
           tr_session_id := atr_session_id request |},
     submitted env request session w).
Proof.
  intros Hkey Hreg.
  pose proof (get_session_registered env w _ session Hreg) as Hget.
  unfold run in Hget |- *. unfold run_agent_task, try_except, mbind, M_bind.
  cbn beta. rewrite Hget, Hkey. reflexivity.
Qed.

Lemma get_agent_task_status_registered w task_id ref :
  agents (server_state w) !! task_id = Some ref →
  ∃ st,
    run (get_agent_task_status task_id) w = (Ok st, w)
    ∧ ts_task_id st = task_id
    ∧ ts_status st = status_of (agent_heap w ref).
Proof.
  intros Hreg. unfold get_agent_task_status. mstep. rewrite Hreg. mstep.
  eexists. split; [reflexivity|]. split; reflexivity.
Qed.

Lemma get_agent_task_status_unknown w task_id :
  agents (server_state w) !! task_id = None →
  run (get_agent_task_status task_id) w
  = (Raise (HTTPException 404 ("Task " +:+ task_id +:+ " not found")), w).
Proof.
  intros Hreg. unfold get_agent_task_status. mstep. by rewrite Hreg.
Qed.

(** Polling reads only, and knows two status words. *)
Lemma get_agent_task_status_words w task_id st w' :
  run (get_agent_task_status task_id) w = (Ok st, w') →
  w' = w
  ∧ (ts_status st = "running" ∨ ts_status st = "completed")
  ∧ ts_status st ≠ "failed".
Proof.
  intros Hrun.
  destruct (agents (server_state w) !! task_id) as [ref|] eqn:Hreg.
  - destruct (get_agent_task_status_registered w task_id ref Hreg)
      as (st' & Hrun' & _ & Hstatus).
    rewrite Hrun in Hrun'. injection Hrun' as -> ->.
    split; [done|]. rewrite Hstatus. unfold status_of.
    destruct (default false (running (internals (agent_heap w ref))));
      split; (by left) || (by right) || discriminate.
  - rewrite (get_agent_task_status_unknown w task_id Hreg) in Hrun. discriminate.
Qed.

(** What a background job leaves behind: the registries as they were, and
    in the job's agent object whatever the run left there. *)
Lemma run_job_effect env job w :
  ∃ w',
    run (run_job env job) w = (Ok tt, w')
    ∧ server_state w' = server_state w
    ∧ internals (agent_heap w' (job_agent job))
      = fst (agent_run env (agent_heap w (job_agent job)) (job_max_steps job))
    ∧ (∀ ref, ref ≠ job_agent job → agent_heap w' ref = agent_heap w ref).
Proof.
  unfold run_job. mstep.
  destruct (agent_run env (agent_heap w (job_agent job)) (job_max_steps job))
    as [after outcome] eqn:Hrun.
  mstep. unfold heap_store.
  destruct (job_closes_agent job); destruct outcome as [history|e]; mstep;
    try (destruct (close_raises after); mstep);
    (eexists; split; [reflexivity|]); cbn;
    (split; [done|]); (split; [by destruct (decide _)|]);
    intros ref Href; by destruct (decide _).
Qed.

(** C3, as stated, fails.  With the API key set and the session "s1"
    registered, a task is submitted; the new agent object carries no truthy
    [running] attribute, so the status polled right after the submission is
    "completed", not "running".  When the run raises, the status polled
    afterwards is still one of the two words the handler knows, not
    "failed". *)
Lemma task_status_counterexample :
  ¬ reports_running_after_submit ∧ ¬ reports_failed_after_error.
Proof.
  split.
  - intros Hclaim.
    destruct (Hclaim (example_env (Some "sk-test"))
                (world_with_session "s1" (custom_session quiet_handle))
                form_task _ _
                (run_agent_task_started (example_env (Some "sk-test"))
                   (world_with_session "s1" (custom_session quiet_handle))
                   form_task (custom_session quiet_handle) eq_refl eq_refl))
      as (st & w1' & Hrun & Hstatus).
    vm_compute in Hrun. injection Hrun as <- _. discriminate Hstatus.
  - intros Hclaim.
    destruct (Hclaim (example_env (Some "sk-test"))
                (world_with_session "s1" (custom_session quiet_handle))
                form_task _ _ (PyException "model call failed")
                (run_agent_task_started (example_env (Some "sk-test"))
                   (world_with_session "s1" (custom_session quiet_handle))
                   form_task (custom_session quiet_handle) eq_refl eq_refl) eq_refl)
      as (st & w2' & Hrun & Hstatus).
    by destruct (get_agent_task_status_words _ _ st w2' Hrun) as (_ & _ & Hne).
Qed.

Lemma heap_store_same heap ref agent : heap_store heap ref agent ref = agent.
Proof. unfold heap_store. by destruct (decide (ref = ref)). Qed.

(** C3, amended.  With the API key set and the session registered,
    [run_agent_task] stores the new agent under the task id
    "task_<milliseconds>" and queues its run before it returns; its own
    response says "started".  [get_agent_task_status] for that id succeeds
    right away and reports "running" if the stored agent object has a truthy
    [running] attribute and "completed" otherwise.  After the queued run,
    whether it returned or raised, the status is again decided by the
    [running] attribute the run left in the object; it is never "failed". *)
Theorem agent_task_status_lifecycle
    (env : Env) (w : World) (request : AgentTaskRequest) (session : BrowserSession) :
  truthy_str (OPENAI_API_KEY env) = true →
  browser_sessions (server_state w) !! atr_session_id request = Some session →
  let task_id := "task_" +:+ pretty (now_ms env) in
  let job := submitted_job env request w in
  ∃ response w1,
    run (run_agent_task env request) w = (Ok response, w1)
    ∧ tr_task_id response = task_id
    ∧ tr_status response = "started"
    ∧ agents (server_state w1) !! task_id = Some (job_agent job)
    ∧ job ∈ background_tasks w1
    ∧ (∃ st,
         run (get_agent_task_status task_id) w1 = (Ok st, w1)
         ∧ ts_status st = status_of (submitted_agent env request session))
    ∧ (∀ env' : Env,
         ∃ w2 st,
           run (run_job env' job) w1 = (Ok tt, w2)
           ∧ run (get_agent_task_status task_id) w2 = (Ok st, w2)
           ∧ ts_status st
             = (if default false
                     (running (fst (agent_run env' (submitted_agent env request session)
                                      (atr_max_steps request))))
                then "running" else "completed")
           ∧ ts_status st ≠ "failed").
Proof.
  intros Hkey Hreg task_id job.
  exists {| tr_task_id := task_id; tr_status := "started";
            tr_message := "Agent task " +:+ task_id +:+ " started";
            tr_session_id := atr_session_id request |},
         (submitted env request session w).
  assert (agents (server_state (submitted env request session w)) !! task_id
          = Some (job_agent job)) as Hstored.
  { cbn -[pretty String.append]. apply lookup_insert_eq. }
  assert (agent_heap (submitted env request session w) (job_agent job)
          = submitted_agent env request session) as Hagent.
  { cbn -[pretty String.append]. apply heap_store_same. }
  split; [by apply run_agent_task_started|].
  split; [done|]. split; [done|]. split; [exact Hstored|].
  split. { cbn -[pretty String.append]. apply elem_of_app. right. by left. }
  split.
  - destruct (get_agent_task_status_registered _ task_id _ Hstored)
      as (st & Hrun & _ & Hstatus).
    exists st. split; [exact Hrun|]. by rewrite Hstatus, Hagent.
  - intros env'.
    destruct (run_job_effect env' job (submitted env request session w))
      as (w2 & Hjob & Hstate & Hinternals & _).
    assert (agents (server_state w2) !! task_id = Some (job_agent job)) as Hstored2.
    { by rewrite Hstate. }
    destruct (get_agent_task_status_registered w2 task_id _ Hstored2)
      as (st & Hrun & _ & Hstatus).
    exists w2, st. split; [exact Hjob|]. split; [exact Hrun|].
    rewrite Hstatus. unfold status_of. rewrite Hinternals, Hagent.
    split; [reflexivity|].
    by destruct (default false _).
Qed.

Lemma agent_task_status_lifecycle_witness :
  ∃ response w1 st,
    run (run_agent_task (example_env (Some "sk-test")) form_task)
        (world_with_session "s1" (custom_session quiet_handle))
    = (Ok response, w1)
    ∧ tr_task_id response = "task_1730000000000"
    ∧ run (get_agent_task_status "task_1730000000000") w1 = (Ok st, w1)
    ∧ ts_status st = "completed".
Proof.
  destruct (agent_task_status_lifecycle (example_env (Some "sk-test"))
              (world_with_session "s1" (custom_session quiet_handle))
              form_task (custom_session quiet_handle) eq_refl eq_refl)
    as (response & w1 & Hrun & Hid & _ & _ & _ & (st & Hpoll & Hstatus) & _).
  exists response, w1, st.
  split; [exact Hrun|]. split; [exact Hid|]. split; [exact Hpoll|exact Hstatus].
Defined.

(** * Further properties *)

(** ** Session registry *)

(** The three ways [create_session] ends. *)
Lemma create_session_outcome env w request :
  let id := effective_id env request in
  (∃ session,
     browser_sessions (server_state w) !! id = Some session
     ∧ ∃ l, run (create_session env request) w
            = (Raise (HTTPException 500 ("400: Session " +:+ id +:+ " already exists")),
               with_log w l))
  ∨ (∃ h,
       browser_sessions (server_state w) !! id = None
       ∧ session_start env (requested_profile env request) = Ok h
       ∧ run (create_session env request) w
         = (Ok {| sr_session_id := id; sr_status := "created";
                  sr_message := "Browser session " +:+ id +:+ " created successfully" |},
            registered env id
              {| browser_profile := requested_profile env request; handle := h |} w))
  ∨ (∃ e l,
       browser_sessions (server_state w) !! id = None
       ∧ session_start env (requested_profile env request) = Raise e
       ∧ run (create_session env request) w
         = (Raise (HTTPException 500 (str_exn e)), with_log w l)).
Proof.
  intros id.
  destruct (browser_sessions (server_state w) !! id) as [session|] eqn:Hreg.
  - left. exists session. split; [done|]. eexists.
    by apply (create_session_duplicate env w request id session).
  - right.
    destruct (session_start env (requested_profile env request)) as [h|e] eqn:Hstart.
    + left. exists h. split; [done|]. split; [done|].
      by apply (create_session_fresh env w request id h).
    + right. exists e. eexists. split; [done|]. split; [done|].
      by apply (create_session_start_fails env w request id e).
Qed.



Lemma close_session_unregistered w id :
  browser_sessions (server_state w) !! id = None →
  run (close_session {| close_session_id := id |}) w
  = (Raise (HTTPException 500 ("404: Session " +:+ id +:+ " not found")),
     with_log w (log w ++ [(ERROR, "Error closing session " +:+ id +:+ ": "
                                   +:+ "404: Session " +:+ id +:+ " not found")])).
Proof. intros Hreg. unfold close_session. mstep. by rewrite Hreg. Qed.








(** X2. After a successful [create_session], [get_session] for the id in
    the response returns the created session, with the profile the request
    asked for, and changes nothing; a further [create_session] for that id
    is answered with status 500 and changes nothing but the log. *)
Theorem created_session_is_found
    (env env' : Env) (w : World) (request : CreateSessionRequest)
    (response : SessionResponse) (w1 : World) :
  run (create_session env request) w = (Ok response, w1) →
  sr_session_id response = effective_id env request
  ∧ (∃ session,
       browser_profile session = requested_profile env request
       ∧ run (get_session env' (sr_session_id response)) w1 = (Ok session, w1))
  ∧ (∀ (env2 : Env) (request2 : CreateSessionRequest),
       effective_id env2 request2 = sr_session_id response →
       ∃ l detail,
         run (create_session env2 request2) w1
         = (Raise (HTTPException 500 detail), with_log w1 l)).
Proof.
  intros Hrun.
  destruct (create_session_outcome env w request)
    as [(session & _ & l & Hrun')|[(h & Hfresh & Hstart & Hrun')|(e & l & _ & _ & Hrun')]];
    rewrite Hrun in Hrun'; try discriminate Hrun'.
  injection Hrun' as -> ->. cbn [sr_session_id].
  assert (browser_sessions
            (server_state
               (registered env (effective_id env request)
                  {| browser_profile := requested_profile env request; handle := h |} w))
          !! effective_id env request
          = Some {| browser_profile := requested_profile env request; handle := h |})
    as Hfound.
  { cbn. apply lookup_insert_eq. }
  split; [done|]. split.
  - eexists. split; [|by apply get_session_registered]. done.
  - intros env2 request2 Hid. eexists _, _.
    apply (create_session_duplicate env2 _ request2 _ _ Hid Hfound).
Qed.

Lemma created_session_is_found_witness :
  ∃ session,
    headless (browser_profile session) = false
    ∧ fst (run (get_session (example_env None) "s9")
             (snd (run (create_session (example_env None)
                          {| csr_session_id := Some "s9"; csr_headless := false;
                             csr_allowed_domains := ["example.com"];
                             csr_wait_between_actions := (1 # 4)%Q |})
                       empty_world)))
      = Ok session.
Proof.
  destruct (created_session_is_found (example_env None) (example_env None) empty_world
              {| csr_session_id := Some "s9"; csr_headless := false;
                 csr_allowed_domains := ["example.com"];
                 csr_wait_between_actions := (1 # 4)%Q |} _ _ eq_refl)
    as (_ & (session & Hprofile & Hget) & _).
  exists session. split; [by rewrite Hprofile|].
  cbn [sr_session_id] in Hget. exact (f_equal fst Hget).
Defined.

(** X3. [close_session] for an id that is not registered raises the
    not-found error with status 404 inside its own [try]; its
    [except Exception] clause answers with status 500 instead.  Nothing but
    the log changes. *)
Theorem close_unregistered_session_answers_500 (w : World) (id : string) :
  browser_sessions (server_state w) !! id = None →
  ∃ w',
    run (close_session {| close_session_id := id |}) w
    = (Raise (HTTPException 500 ("404: Session " +:+ id +:+ " not found")), w')
    ∧ classify (transport_status
                  (fst (run (close_session {| close_session_id := id |}) w)))
      = InternalFailure
    ∧ server_state w' = server_state w
    ∧ agent_heap w' = agent_heap w.
Proof.
  intros Hreg. rewrite (close_session_unregistered w id Hreg).
  eexists. split; [reflexivity|]. done.
Qed.

Lemma close_unregistered_session_answers_500_witness :
  fst (run (close_session {| close_session_id := "ghost" |}) empty_world)
  = Raise (HTTPException 500 "404: Session ghost not found").
Proof.
  destruct (close_unregistered_session_answers_500 empty_world "ghost" eq_refl)
    as (w' & Hrun & _).
  exact (f_equal fst Hrun).
Defined.

(** X4. After a successful [close_session], the id is not registered any
    more: [get_session] answers 404 for it, unless the id is "default", for
    which a new session with the built-in defaults is created once the
    browser starts.  Other sessions and the stored credentials are as they
    were. *)
Theorem closed_session_is_gone
    (env : Env) (w : World) (id : string) (response : MessageResponse) (w1 : World) :
  run (close_session {| close_session_id := id |}) w = (Ok response, w1) →
  browser_sessions (server_state w1) !! id = None
  ∧ (id ≠ "default" →
     run (get_session env id) w1
     = (Raise (HTTPException 404 ("Session " +:+ id +:+ " not found")), w1))
  ∧ (id = "default" →
     ∀ h, session_start env (default_profile env) = Ok h →
          fst (run (get_session env id) w1) = Ok (default_session env h))
  ∧ (∀ id', id' ≠ id →
       browser_sessions (server_state w1) !! id'
       = browser_sessions (server_state w) !! id')
  ∧ account_storage (server_state w1) = account_storage (server_state w).
Proof.
  intros Hrun.
  destruct (browser_sessions (server_state w) !! id) as [session|] eqn:Hreg;
    [|rewrite (close_session_unregistered w id Hreg) in Hrun; discriminate Hrun].
  destruct (teardown_failure w id session) as [msg|] eqn:Hfail.
  { destruct (close_session_failing w id session msg Hreg Hfail) as (w' & Hrun' & _).
    rewrite Hrun in Hrun'. discriminate Hrun'. }
  rewrite (close_session_clean w id session Hreg Hfail) in Hrun.
  injection Hrun as <- <-.
  assert (browser_sessions (server_state (with_log
            {| server_state :=
                 {| browser_sessions := delete id (browser_sessions (server_state w));
                    agents := delete id (agents (server_state w));
                    controllers := delete id (controllers (server_state w));
                    file_systems := delete id (file_systems (server_state w));
                    account_storage := account_storage (server_state w) |};
               agent_heap := agent_heap w; next_agent := next_agent w; log := log w;
               accounts_file := accounts_file w;
               background_tasks := background_tasks w |}
            (log w ++ [(INFO, "Closed browser session " +:+ id)]))) !! id = None)
    as Hgone.
  { cbn. apply lookup_delete_eq. }
  split; [exact Hgone|]. split; [|split; [|split]].
  - intros Hne. by apply get_session_unknown.
  - intros -> h Hstart. by rewrite (get_session_default env _ h Hgone Hstart).
  - intros id' Hne. cbn. by apply lookup_delete_ne.
  - reflexivity.
Qed.

Lemma closed_session_is_gone_witness :
  fst (run (get_session (example_env None) "s1")
         (snd (run (close_session {| close_session_id := "s1" |})
                   (world_with_session "s1" (custom_session quiet_handle)))))
  = Raise (HTTPException 404 "Session s1 not found").
Proof.
  destruct (closed_session_is_gone (example_env None)
              (world_with_session "s1" (custom_session quiet_handle)) "s1" _ _ eq_refl)
    as (_ & Hget & _).
  assert ("s1" ≠ "default") as Hne by discriminate.
  exact (f_equal fst (Hget Hne)).
Defined.

(** ** Unified dispatcher *)

Lemma route_tool_name_of (h : Handler) : route (tool_name_of h) = Some h.
Proof. by destruct h. Qed.

Lemma route_Some (name : string) (h : Handler) :
  route name = Some h → name = tool_name_of h.
Proof.
  unfold route. intros Hroute.
  repeat (match type of Hroute with
          | (if decide (?x = ?y) then _ else _) = _ =>
              destruct (decide (x = y)) as [->|_];
              [by injection Hroute as <- |]
          end).
  discriminate Hroute.
Qed.

(** X5. The routing of [mcp_endpoint] is one-to-one: a tool name reaches a
    handler exactly when it is that handler's tool name, so no two names
    share a handler and every handler has a name. *)
Theorem route_is_one_to_one (name : string) (h : Handler) :
  (route name = Some h ↔ name = tool_name_of h)
  ∧ (∀ name', route name = Some h → route name' = Some h → name = name').
Proof.
  split.
  - split; [apply route_Some | intros ->; apply route_tool_name_of].
  - intros name' H1 H2. apply route_Some in H1, H2. congruence.
Qed.

(** X6. Whatever the handler does, [mcp_endpoint] lets no exception but an
    [HTTPException] out: a returned value and an [HTTPException] of the
    handler pass through with their status, any other exception is answered
    with status 500 and its text as detail; a name without a handler is
    answered with status 400 without any handler being called. *)
Theorem mcp_endpoint_error_envelope
    {Parameters Response : Type}
    (call : Handler → Parameters → M Response)
    (request : MCPRequest Parameters) (w : World) :
  (∀ m, fst (run (mcp_endpoint call request) w) ≠ Raise (PyException m))
  ∧ (∀ h, route (tool_name request) = Some h →
          fst (run (mcp_endpoint call request) w)
          = match fst (run (call h (parameters request)) w) with
            | Ok response => Ok response
            | Raise (HTTPException c d) => Raise (HTTPException c d)
            | Raise (PyException m) => Raise (HTTPException 500 m)
            end)
  ∧ (route (tool_name request) = None →
     ∃ l, run (mcp_endpoint call request) w
          = (Raise (HTTPException 400 ("Unknown tool: " +:+ tool_name request)),
             with_log w l)).
Proof.
  split; [|split].
  - intros m. destruct (route (tool_name request)) as [h|] eqn:Hroute.
    + rewrite (mcp_endpoint_routed call request h w Hroute).
      by destruct (fst (run (call h (parameters request)) w)) as [?|[? ?|?]].
    + by rewrite (mcp_endpoint_unknown_tool call request w Hroute).
  - intros h Hroute. by apply mcp_endpoint_routed.
  - intros Hroute. eexists. by apply mcp_endpoint_unknown_tool.
Qed.

Lemma mcp_endpoint_error_envelope_witness :
  fst (run (mcp_endpoint (λ _ _, raise (PyException "boom"))
              {| tool_name := "browser_click"; parameters := tt |}) empty_world)
  = @Raise unit (HTTPException 500 "boom")
  ∧ fst (run (mcp_endpoint (λ _ _, raise (PyException "boom"))
                {| tool_name := "click"; parameters := tt |}) empty_world)
    = @Raise unit (HTTPException 400 "Unknown tool: click").
Proof.
  split.
  - exact (proj1 (proj2 (mcp_endpoint_error_envelope
                           (λ _ _, raise (PyException "boom"))
                           {| tool_name := "browser_click"; parameters := tt |}
                           empty_world)) To_browser_click eq_refl).
  - destruct (proj2 (proj2 (mcp_endpoint_error_envelope
                              (Response := unit) (λ _ _, raise (PyException "boom"))
                              {| tool_name := "click"; parameters := tt |}
                              empty_world)) eq_refl) as [l Hrun].
    exact (f_equal fst Hrun).
Defined.

Lemma route_is_one_to_one_witness :
  "browse_agent" = tool_name_of To_run_agent_task
  ∧ ∀ name', route name' = Some To_run_agent_task → "browse_agent" = name'.
Proof.
  split.
  - exact (proj1 (proj1 (route_is_one_to_one "browse_agent" To_run_agent_task)) eq_refl).
  - intros name' Hname'.
    exact (proj2 (route_is_one_to_one "browse_agent" To_run_agent_task)
             name' eq_refl Hname').
Defined.

(** ** Handlers with a blanket [except] *)

(** A handler whose body runs under [try: ... except Exception as e: log;
    raise HTTPException(500, str(e))] answers with a value or with status
    500, whatever its body raises. *)
Lemma blanket_except_status {A} (body : M A) (line : exn → string) (w : World) :
  let answer :=
    fst (run (try_except body
                (λ e, logger ERROR (line e);;
                      raise (HTTPException 500 (str_exn e)))) w) in
  (∃ a, answer = Ok a) ∨ (∃ detail, answer = Raise (HTTPException 500 detail)).
Proof.
  cbn zeta. rewrite run_try_except.
  destruct (run body w) as [[a|e] w']; [left; by exists a|].
  right. exists (str_exn e). reflexivity.
Qed.

(** X7. [create_session], [close_session], [run_agent_task],
    [retry_with_browser_use_agent], [generate_account_credentials],
    [browser_click] and [browser_type] answer either with a value or with
    status 500: the statuses 400 and 404 their bodies raise never reach the
    caller. *)
Theorem blanket_handlers_answer_200_or_500
    (env : Env)
    (click : BrowserSession → DOMElementNode → option string)
    (input : BrowserSession → DOMElementNode → string → option string)
    (w : World) :
  let fine {A} (answer : result A) : Prop :=
    transport_status answer = 200%nat ∨ transport_status answer = 500%nat in
  (∀ request, fine (fst (run (create_session env request) w)))
  ∧ (∀ request, fine (fst (run (close_session request) w)))
  ∧ (∀ request, fine (fst (run (run_agent_task env request) w)))
  ∧ (∀ request, fine (fst (run (retry_with_browser_use_agent env request) w)))
  ∧ (∀ request, fine (fst (run (generate_account_credentials env request) w)))
  ∧ (∀ request, fine (fst (run (browser_click env click request) w)))
  ∧ (∀ request, fine (fst (run (browser_type env input request) w))).
Proof.
  cbn zeta.
  assert (∀ A (answer : result A),
            (∃ a, answer = Ok a) ∨ (∃ detail, answer = Raise (HTTPException 500 detail)) →
            transport_status answer = 200%nat ∨ transport_status answer = 500%nat)
    as Hfine.
  { intros A answer [[a ->]|[detail ->]]; [by left | by right]. }
  repeat split; intros request; apply Hfine;
    [unfold create_session | unfold close_session | unfold run_agent_task
    | unfold retry_with_browser_use_agent | unfold generate_account_credentials
    | unfold browser_click | unfold browser_type];
    eapply (blanket_except_status _ _ w).
Qed.

(** ** Task orchestrator *)

(** X8. Submitting an agent task for the session "default" while it is not
    registered and [OPENAI_API_KEY] is unset or empty is answered with
    status 500, yet the default session has been created on the way and
    stays registered; no agent is stored and no job is queued. *)
Theorem failed_submission_leaves_default_session
    (env : Env) (w : World) (request : AgentTaskRequest) (h : BrowserHandle) :
  truthy_str (OPENAI_API_KEY env) = false →
  atr_session_id request = "default" →
  browser_sessions (server_state w) !! "default" = None →
  session_start env (default_profile env) = Ok h →
  ∃ w',
    run (run_agent_task env request) w
    = (Raise (HTTPException 500 "400: OPENAI_API_KEY environment variable not set"), w')
    ∧ browser_sessions (server_state w') !! "default" = Some (default_session env h)
    ∧ agents (server_state w') = agents (server_state w)
    ∧ background_tasks w' = background_tasks w.
Proof.
  intros Hkey Hid Hfresh Hstart.
  pose proof (get_session_default env w h Hfresh Hstart) as Hget.
  unfold run in Hget |- *. unfold run_agent_task, try_except, mbind, M_bind.
  cbn beta. rewrite Hid, Hget, Hkey. cbn -[String.append pretty].
  eexists. split; [reflexivity|]. cbn -[String.append pretty].
  split; [apply lookup_insert_eq|]. done.
Qed.

Lemma failed_submission_leaves_default_session_witness :
  ∃ w',
    run (run_agent_task (example_env None)
           {| atr_task := "look around"; atr_max_steps := 5; atr_model := "gpt-4o";
              atr_session_id := "default" |}) empty_world
    = (Raise (HTTPException 500 "400: OPENAI_API_KEY environment variable not set"), w')
    ∧ is_Some (browser_sessions (server_state w') !! "default").
Proof.
  destruct (failed_submission_leaves_default_session (example_env None) empty_world
              {| atr_task := "look around"; atr_max_steps := 5; atr_model := "gpt-4o";
                 atr_session_id := "default" |} quiet_handle
              eq_refl eq_refl eq_refl eq_refl)
    as (w' & Hrun & Hsession & _).
  exists w'. split; [exact Hrun|]. rewrite Hsession. by eexists.
Defined.

(** X9. A background job never raises and never touches the registries,
    whether the agent's run returns or raises and, for a retry job, whether
    closing the agent raises; it only replaces what the run left inside the
    job's own agent object. *)
Theorem background_job_is_contained (env : Env) (job : Job) (w : World) :
  ∃ w',
    run (run_job env job) w = (Ok tt, w')
    ∧ server_state w' = server_state w
    ∧ internals (agent_heap w' (job_agent job))
      = fst (agent_run env (agent_heap w (job_agent job)) (job_max_steps job))
    ∧ (∀ ref, ref ≠ job_agent job → agent_heap w' ref = agent_heap w ref).
Proof. apply run_job_effect. Qed.

(** X10. An unknown task id is answered with status 404, directly and
    through [mcp_endpoint] alike, and polling changes nothing. *)
Theorem unknown_task_answers_404 (w : World) (task_id : string) :
  agents (server_state w) !! task_id = None →
  run (get_agent_task_status task_id) w
  = (Raise (HTTPException 404 ("Task " +:+ task_id +:+ " not found")), w)
  ∧ (∀ (Parameters : Type) (call : Handler → Parameters → M TaskStatusResponse)
       (p : Parameters),
       call To_get_agent_task_status p = get_agent_task_status task_id →
       fst (run (mcp_endpoint call
                   {| tool_name := "get_agent_task_status"; parameters := p |}) w)
       = Raise (HTTPException 404 ("Task " +:+ task_id +:+ " not found"))).
Proof.
  intros Hreg. split; [by apply get_agent_task_status_unknown|].
  intros Parameters call p Hcall.
  rewrite (mcp_endpoint_routed call _ To_get_agent_task_status) by reflexivity.
  cbn -[String.append]. rewrite Hcall.
  by rewrite (get_agent_task_status_unknown w task_id Hreg).
Qed.

Lemma unknown_task_answers_404_witness :
  run (get_agent_task_status "task_1") empty_world
  = (Raise (HTTPException 404 "Task task_1 not found"), empty_world).
Proof. exact (proj1 (unknown_task_answers_404 empty_world "task_1" eq_refl)). Defined.

(** X11. Task ids are made from the clock alone: two submissions that read
    the same millisecond get the same task id, the second agent replaces
    the first in the registry, and both runs stay queued.  The status of the
    first task can no longer be polled: the id answers for the second agent. *)
Theorem same_millisecond_submissions_collide
    (env env2 : Env) (w : World) (request request2 : AgentTaskRequest)
    (session session2 : BrowserSession) :
  truthy_str (OPENAI_API_KEY env) = true →
  truthy_str (OPENAI_API_KEY env2) = true →
  now_ms env2 = now_ms env →
  browser_sessions (server_state w) !! atr_session_id request = Some session →
  browser_sessions (server_state w) !! atr_session_id request2 = Some session2 →
  ∃ response response2 w1 w2,
    run (run_agent_task env request) w = (Ok response, w1)
    ∧ run (run_agent_task env2 request2) w1 = (Ok response2, w2)
    ∧ tr_task_id response2 = tr_task_id response
    ∧ agents (server_state w2) !! tr_task_id response = Some (S (next_agent w))
    ∧ agent_heap w2 (next_agent w) = submitted_agent env request session
    ∧ agent_heap w2 (S (next_agent w)) = submitted_agent env2 request2 session2
    ∧ background_tasks w2
      = (background_tasks w
         ++ [submitted_job env request w;
             submitted_job env2 request2 (submitted env request session w)])%list.
Proof.
  intros Hkey Hkey2 Hnow Hreg Hreg2.
  eexists _, _, _, _.
  split; [by apply run_agent_task_started|].
  split.
  { apply (run_agent_task_started env2 (submitted env request session w)
             request2 session2 Hkey2).
    exact Hreg2. }
  cbn -[pretty String.append]. rewrite Hnow.
  split; [done|]. split; [apply lookup_insert_eq|].
  unfold heap_store. split; [|split].
  - destruct (decide (next_agent w = S (next_agent w))); [lia|].
    by destruct (decide (next_agent w = next_agent w)).
  - by destruct (decide (S (next_agent w) = S (next_agent w))).
  - by rewrite <- app_assoc.
Qed.

Lemma same_millisecond_submissions_collide_witness :
  ∃ response response2 w1 w2,
    run (run_agent_task (example_env (Some "sk-test")) form_task)
        (world_with_session "s1" (custom_session quiet_handle))
    = (Ok response, w1)
    ∧ run (run_agent_task (example_env (Some "sk-test")) form_task) w1
      = (Ok response2, w2)
    ∧ tr_task_id response2 = tr_task_id response
    ∧ agents (server_state w2) !! tr_task_id response = Some 1%nat.
Proof.
  destruct (same_millisecond_submissions_collide
              (example_env (Some "sk-test")) (example_env (Some "sk-test"))
              (world_with_session "s1" (custom_session quiet_handle))
              form_task form_task
              (custom_session quiet_handle) (custom_session quiet_handle)
              eq_refl eq_refl eq_refl eq_refl eq_refl)
    as (response & response2 & w1 & w2 & Hrun1 & Hrun2 & Hid & Hagent & _).
  exists response, response2, w1, w2. done.
Defined.

(** X12. [retry_with_browser_use_agent] needs no session and creates none:
    with the API key set it stores a new agent under the task id
    "retry_task_<milliseconds>", queues a job that closes the agent after
    its run, and leaves the sessions, controllers, workspaces and
    credentials as they were. *)
Theorem retry_registers_ad_hoc_agent
    (env : Env) (w : World) (request : RetryWithAgentRequest) :
  truthy_str (OPENAI_API_KEY env) = true →
  let task_id := "retry_task_" +:+ pretty (now_ms env) in
  ∃ response w1,
    run (retry_with_browser_use_agent env request) w = (Ok response, w1)
    ∧ tr_task_id response = task_id
    ∧ tr_status response = "started"
    ∧ agents (server_state w1) !! task_id = Some (next_agent w)
    ∧ agent_session (agent_heap w1 (next_agent w)) = None
    ∧ background_tasks w1
      = (background_tasks w
         ++ [{| job_task_id := task_id; job_agent := next_agent w;
                job_max_steps := rwa_max_steps request;
                job_closes_agent := true |}])%list
    ∧ browser_sessions (server_state w1) = browser_sessions (server_state w)
    ∧ controllers (server_state w1) = controllers (server_state w)
    ∧ file_systems (server_state w1) = file_systems (server_state w)
    ∧ account_storage (server_state w1) = account_storage (server_state w).
Proof.
  intros Hkey task_id. unfold retry_with_browser_use_agent.
  unfold_monad. cbn beta. rewrite Hkey. cbn -[pretty String.append].
  eexists _, _. split; [reflexivity|]. cbn -[pretty String.append].
  split; [done|]. split; [done|]. split; [apply lookup_insert_eq|].
  split; [by rewrite heap_store_same|]. done.
Qed.

Lemma retry_registers_ad_hoc_agent_witness :
  ∃ response w1,
    run (retry_with_browser_use_agent (example_env (Some "sk-test"))
           {| rwa_task := "try again"; rwa_max_steps := 10; rwa_model := "gpt-4o";
              rwa_allowed_domains := []; rwa_use_vision := true;
              rwa_session_id := "nowhere" |}) empty_world
    = (Ok response, w1)
    ∧ tr_task_id response = "retry_task_1730000000000"
    ∧ browser_sessions (server_state w1) = ∅.
Proof.
  destruct (retry_registers_ad_hoc_agent (example_env (Some "sk-test")) empty_world
              {| rwa_task := "try again"; rwa_max_steps := 10; rwa_model := "gpt-4o";
                 rwa_allowed_domains := []; rwa_use_vision := true;
                 rwa_session_id := "nowhere" |} eq_refl)
    as (response & w1 & Hrun & Hid & _ & _ & _ & _ & Hsessions & _).
  exists response, w1. split; [exact Hrun|]. split; [exact Hid|exact Hsessions].
Defined.

(** X13. Whatever its outcome, [close_session] leaves the stored
    credentials alone and removes no agent but the one stored under the
    session id itself: the tasks submitted for the session, stored under
    their task ids, stay registered. *)
Theorem close_session_keeps_tasks_and_credentials (w : World) (id : string) :
  let w' := snd (run (close_session {| close_session_id := id |}) w) in
  account_storage (server_state w') = account_storage (server_state w)
  ∧ (∀ task_id, task_id ≠ id →
       agents (server_state w') !! task_id = agents (server_state w) !! task_id)
  ∧ agent_heap w' = agent_heap w.
Proof.
  cbn zeta. unfold close_session. mstep.
  destruct (browser_sessions (server_state w) !! id) as [session|] eqn:Hreg;
    [|done].
  destruct (agents (server_state w) !! id) as [ref|] eqn:Hagent;
    cbn -[pretty String.append].
  - destruct (close_raises (internals (agent_heap w ref))) as [msg|];
      cbn -[pretty String.append]; [done|].
    rewrite Hreg.
    destruct (stop_raises (handle session)) as [msg|]; cbn -[pretty String.append];
      (split; [done|]); (split; [|done]);
      intros task_id Hne; by rewrite lookup_delete_ne.
  - rewrite Hreg.
    destruct (stop_raises (handle session)) as [msg|]; cbn -[pretty String.append];
      (split; [done|]); (split; [|done]);
      intros task_id Hne; by rewrite ?lookup_delete_ne.
Qed.

Lemma close_session_keeps_tasks_and_credentials_witness :
  agents (server_state
            (snd (run (close_session {| close_session_id := "s1" |})
                      (submitted (example_env (Some "sk-test")) form_task
                         (custom_session quiet_handle)
                         (world_with_session "s1" (custom_session quiet_handle))))))
    !! "task_1730000000000" = Some 0%nat.
Proof.
  rewrite (proj1 (proj2 (close_session_keeps_tasks_and_credentials
                           (submitted (example_env (Some "sk-test")) form_task
                              (custom_session quiet_handle)
                              (world_with_session "s1" (custom_session quiet_handle)))
                           "s1")) "task_1730000000000").
  - reflexivity.
  - discriminate.
Defined.

(** ** Frame resolver *)

Section FrameOrder.
Context (repr : list string → string) (dom_element : DOMElementNode) (text : string).

Lemma frame_body_selects frame frame_index w msg :
  frame_selects repr dom_element text frame msg →
  ∃ l, run (frame_body repr dom_element text frame frame_index) w
       = (Ok (Returned {| message := msg |}), with_log w l).
Proof.
  intros Hsel. unfold frame_body, element_info_js, click_aria_item_js.
  destruct Hsel as [node values Hp Hdoc Htag Hopt | node Hp Hdoc Htag Hrole Hclick Hitem];
    mstep; rewrite Hp; mstep; rewrite Hdoc.
  - destruct (decide (js_toLowerCase (tagName node) = "select")); [|done].
    mstep. rewrite Hopt. eexists. reflexivity.
  - destruct (decide (js_toLowerCase (tagName node) = "select")); [done|].
    destruct (decide _); [|done]. mstep. rewrite Hclick. mstep.
    rewrite (click_first_match_some _ _ Hitem). eexists. reflexivity.
Qed.

Lemma frames_loop_first_selecting pre frame post frame_index w msg :
  Forall (frame_fails dom_element text) pre →
  frame_selects repr dom_element text frame msg →
  ∃ l, run (frames_loop repr dom_element text (pre ++ frame :: post) frame_index) w
       = (Ok {| message := msg |}, with_log w l).
Proof.
  intros Hpre Hsel. revert frame_index w.
  induction Hpre as [|f rest Hf _ IH]; intros frame_index w.
  - cbn [app frames_loop]. rewrite run_bind.
    destruct (frame_body_selects frame frame_index w msg Hsel) as [l Hbody].
    rewrite Hbody. by exists l.
  - cbn [app frames_loop]. rewrite run_bind.
    destruct (frame_body_fails repr dom_element text f frame_index w Hf)
      as [l [Hbody|Hbody]]; rewrite Hbody.
    + destruct (IH frame_index (with_log w l)) as [l' Hrest].
      exists l'. by rewrite Hrest.
    + destruct (IH (S frame_index) (with_log w l)) as [l' Hrest].
      exists l'. by rewrite Hrest.
Qed.


End FrameOrder.



(** X15. The frames are tried in order and the first one that yields a
    selection decides: if the frames before it all fail, the answer is that
    frame's message (the selected option with Playwright's values, or the
    clicked menu item), whatever frames come after it. *)
Theorem first_selecting_frame_decides
    (env : Env) (repr : list string → string) (w : World)
    (request : SelectDropdownRequest) (session : BrowserSession)
    (dom_element : DOMElementNode) (pre post : list Frame) (frame : Frame)
    (msg : string) :
  browser_sessions (server_state w) !! sdr_session_id request = Some session →
  selector_map (handle session) !! sdr_index request = Some dom_element →
  page_frames (handle session) = (pre ++ frame :: post)%list →
  Forall (frame_fails dom_element (sdr_text request)) pre →
  frame_selects repr dom_element (sdr_text request) frame msg →
  ∃ l,
    run (select_dropdown_option env repr request) w
    = (Ok {| message := msg |}, with_log w l).
Proof.
  intros Hreg Helement Hframes Hpre Hsel.
  destruct (frames_loop_first_selecting repr dom_element (sdr_text request)
              pre frame post 0 w msg Hpre Hsel) as [l Hloop].
  exists l. unfold select_dropdown_option. rewrite run_bind.
  rewrite (get_session_registered env w _ session Hreg), Helement, Hframes.
  unfold select_in_frames. by rewrite run_try_except, Hloop.
Qed.

Lemma first_selecting_frame_decides_witness :
  ∃ l,
    run (select_dropdown_option (example_env None) (λ values, "['blue']")
           {| sdr_session_id := "s1"; sdr_index := 4; sdr_text := "Blue" |})
        (world_with_session "s1"
           (custom_session
              {| selector_map := {[ 4%Z := colour_picker ]};
                 page_frames := [main_frame; blue_select_frame; listbox_frame];
                 stop_raises := None |}))
    = (Ok {| message := "selected option Blue with value ['blue']" |},
       with_log
         (world_with_session "s1"
            (custom_session
               {| selector_map := {[ 4%Z := colour_picker ]};
                  page_frames := [main_frame; blue_select_frame; listbox_frame];
                  stop_raises := None |})) l).
Proof.
  apply (first_selecting_frame_decides (example_env None) (λ values, "['blue']")
           _ {| sdr_session_id := "s1"; sdr_index := 4; sdr_text := "Blue" |}
           (custom_session
              {| selector_map := {[ 4%Z := colour_picker ]};
                 page_frames := [main_frame; blue_select_frame; listbox_frame];
                 stop_raises := None |})
           colour_picker [main_frame] [listbox_frame] blue_select_frame).
  - reflexivity.
  - reflexivity.
  - reflexivity.
  - apply Forall_cons_2; [by apply element_absent | apply Forall_nil_2].
  - exact (selects_option (λ values, "['blue']") colour_picker "Blue"
             blue_select_frame
             {| tagName := "SELECT"; role := None;
                option_texts := ["Red"; "Blue"]; menu_items := [] |} ["blue"]
             eq_refl eq_refl eq_refl eq_refl).
Defined.

(** ** Credential vault *)

(** The storage [store_account] leaves: the record sits under its three
    keys, every other record is as it was. *)
Lemma generate_account_credentials_storage env request w password :
  generate_password env default_password_length = Ok password →
  ∃ w',
    run (generate_account_credentials env request) w
    = (Ok {| cr_website := normalize_website (pgr_website request);
             cr_email := pgr_email request;
             cr_password := password;
             cr_session_id := pgr_session_id request;
             cr_message := "Generated and stored credentials for "
                           +:+ normalize_website (pgr_website request) |}, w')
    ∧ (∀ session_id website email,
         get_account (server_state w') session_id website email
         = if decide (session_id = pgr_session_id request
                      ∧ website = normalize_website (pgr_website request)
                      ∧ email = pgr_email request)
           then Some {| account_email := pgr_email request;
                        account_password := password |}
           else get_account (server_state w) session_id website email)
    ∧ accounts_file w'
      = match accounts_file_error env with
        | None => Some (account_storage (server_state w'))
        | Some _ => accounts_file w
        end
    ∧ (∀ msg, accounts_file_error env = Some msg →
              (ERROR, "Error saving accounts to file: " +:+ msg) ∈ log w')
    ∧ browser_sessions (server_state w') = browser_sessions (server_state w)
    ∧ agents (server_state w') = agents (server_state w).
Proof.
  intros Hgen. unfold generate_account_credentials, store_account,
    _save_accounts_to_file.
  fold (normalize_website (pgr_website request)).
  unfold_monad. cbn beta. rewrite Hgen. cbn beta iota.
  set (k := normalize_website (pgr_website request)).
  assert (∀ session_id website email,
    default ∅ (default ∅
      (<[pgr_session_id request :=
           <[k := <[pgr_email request :=
                      {| account_email := pgr_email request;
                         account_password := password |}]>
                    (default ∅ (default ∅ (account_storage (server_state w)
                                           !! pgr_session_id request) !! k))]>
             (default ∅ (account_storage (server_state w) !! pgr_session_id request))]>
         (account_storage (server_state w)) !! session_id) !! website) !! email
    = if decide (session_id = pgr_session_id request ∧ website = k
                 ∧ email = pgr_email request)
      then Some {| account_email := pgr_email request; account_password := password |}
      else get_account (server_state w) session_id website email) as Hlookup.
  { intros session_id website email. unfold get_account.
    destruct (decide (session_id = pgr_session_id request)) as [->|Hs].
    - rewrite lookup_insert_eq. cbn.
      destruct (decide (website = k)) as [->|Hk].
      + rewrite lookup_insert_eq. cbn.
        destruct (decide (email = pgr_email request)) as [->|He].
        * rewrite lookup_insert_eq. by rewrite decide_True.
        * rewrite lookup_insert_ne by done. rewrite decide_False by (intros (? & ? & ?); congruence).
          done.
      + rewrite lookup_insert_ne by done. rewrite decide_False by (intros (? & ? & ?); congruence).
        done.
    - rewrite lookup_insert_ne by done. rewrite decide_False by (intros (? & ? & ?); congruence).
      done. }
  destruct (accounts_file_error env) as [msg|];
    (eexists; split; [reflexivity|]);
    cbn -[normalize_website get_account]; unfold get_account at 1;
    cbn -[normalize_website get_account];
    (split; [exact Hlookup|]); (split; [reflexivity|]); (split; [|done]).
  - intros msg' [= <-]. apply elem_of_app. left. apply elem_of_app. right. by left.
  - intros msg' [=].
Qed.

Lemma retrieve_account_credentials_not_found request w :
  get_account (server_state w) (arr_session_id request)
    (normalize_website (arr_website request)) (arr_email request) = None →
  ∃ l,
    run (retrieve_account_credentials request) w
    = (Raise (HTTPException 404
                ("No credentials found for " +:+ arr_email request +:+ " on "
                 +:+ normalize_website (arr_website request) +:+ " in session "
                 +:+ arr_session_id request)),
       with_log w l).
Proof.
  intros Hmissing. unfold retrieve_account_credentials.
  fold (normalize_website (arr_website request)).
  unfold_monad. cbn beta. rewrite Hmissing. eexists. reflexivity.
Qed.

(** X16. Retrieving credentials that were never stored under the session,
    the normalized website and the email is answered with status 404 (this
    handler passes its own [HTTPException] on), directly and through
    [mcp_endpoint] alike, and changes nothing but the log. *)
Theorem unstored_credentials_answer_404 (request : AccountRetrievalRequest) (w : World) :
  get_account (server_state w) (arr_session_id request)
    (normalize_website (arr_website request)) (arr_email request) = None →
  ∃ detail l,
    run (retrieve_account_credentials request) w
    = (Raise (HTTPException 404 detail), with_log w l)
    ∧ classify (transport_status
                  (fst (run (retrieve_account_credentials request) w))) = NotFound
    ∧ (∀ (Parameters : Type) (call : Handler → Parameters → M CredentialsResponse)
         (p : Parameters),
         call To_retrieve_account_credentials p = retrieve_account_credentials request →
         fst (run (mcp_endpoint call
                     {| tool_name := "retrieve_account_credentials";
                        parameters := p |}) w)
         = Raise (HTTPException 404 detail)).
Proof.
  intros Hmissing.
  destruct (retrieve_account_credentials_not_found request w Hmissing) as [l Hrun].
  eexists _, l. split; [exact Hrun|]. rewrite Hrun. split; [reflexivity|].
  intros Parameters call p Hcall.
  rewrite (mcp_endpoint_routed call _ To_retrieve_account_credentials) by reflexivity.
  cbn -[String.append normalize_website]. by rewrite Hcall, Hrun.
Qed.

Lemma unstored_credentials_answer_404_witness :
  fst (run (retrieve_account_credentials
              {| arr_website := "foo.com"; arr_email := "a@b.com";
                 arr_session_id := "s1" |}) empty_world)
  = Raise (HTTPException 404
             "No credentials found for a@b.com on foo.com in session s1").
Proof.
  destruct (unstored_credentials_answer_404
              {| arr_website := "foo.com"; arr_email := "a@b.com";
                 arr_session_id := "s1" |} empty_world eq_refl)
    as (detail & l & Hrun & _).
  pose proof (f_equal fst Hrun) as Hanswer. cbn [fst] in Hanswer.
  rewrite Hanswer. vm_compute in Hrun. congruence.
Defined.

(** X17. A second generation for the same session, website key and email
    overwrites the first: retrieval afterwards returns the second password,
    and no trace of the first one is left under that triple. *)
Theorem last_generated_password_wins
    (env1 env2 : Env) (w : World) (session_id email website1 website2 website3 : string) :
  normalize_website website2 = normalize_website website1 →
  normalize_website website3 = normalize_website website1 →
  ∃ first w1 second w2 retrieved w3,
    run (generate_account_credentials env1
           {| pgr_website := website1; pgr_email := email;
              pgr_session_id := session_id |}) w = (Ok first, w1)
    ∧ run (generate_account_credentials env2
             {| pgr_website := website2; pgr_email := email;
                pgr_session_id := session_id |}) w1 = (Ok second, w2)
    ∧ run (retrieve_account_credentials
             {| arr_website := website3; arr_email := email;
                arr_session_id := session_id |}) w2 = (Ok retrieved, w3)
    ∧ cr_password retrieved = cr_password second
    ∧ generate_password env2 default_password_length = Ok (cr_password second).
Proof.
  intros Hsame2 Hsame3.
  destruct (generate_password_spec env1 default_password_length) as (p1 & Hgen1 & _).
  destruct (generate_password_spec env2 default_password_length) as (p2 & Hgen2 & _).
  destruct (generate_account_credentials_storage env1
              {| pgr_website := website1; pgr_email := email;
                 pgr_session_id := session_id |} w p1 Hgen1) as (w1 & Hrun1 & _).
  destruct (generate_account_credentials_storage env2
              {| pgr_website := website2; pgr_email := email;
                 pgr_session_id := session_id |} w1 p2 Hgen2)
    as (w2 & Hrun2 & Hstored & _).
  cbn [pgr_website pgr_email pgr_session_id] in Hstored.
  destruct (retrieve_account_credentials_found
              {| arr_website := website3; arr_email := email;
                 arr_session_id := session_id |} w2
              {| account_email := email; account_password := p2 |})
    as (w3 & Hrun3 & _).
  { cbn [arr_website arr_email arr_session_id]. rewrite Hstored.
    rewrite decide_True; [done|]. by rewrite Hsame2, Hsame3. }
  eexists _, w1, _, w2, _, w3.
  split; [exact Hrun1|]. split; [exact Hrun2|]. split; [exact Hrun3|]. done.
Qed.

Lemma last_generated_password_wins_witness :
  ∃ first w1 second w2 retrieved w3,
    run (generate_account_credentials (example_env None)
           {| pgr_website := "foo.com"; pgr_email := "a@b.com";
              pgr_session_id := "s1" |}) empty_world = (Ok first, w1)
    ∧ run (generate_account_credentials (example_env None)
             {| pgr_website := "http://foo.com/signup"; pgr_email := "a@b.com";
                pgr_session_id := "s1" |}) w1 = (Ok second, w2)
    ∧ run (retrieve_account_credentials
             {| arr_website := "www.foo.com"; arr_email := "a@b.com";
                arr_session_id := "s1" |}) w2 = (Ok retrieved, w3)
    ∧ cr_password retrieved = cr_password second.
Proof.
  destruct (last_generated_password_wins (example_env None) (example_env None)
              empty_world "s1" "a@b.com" "foo.com" "http://foo.com/signup"
              "www.foo.com" eq_refl eq_refl)
    as (first & w1 & second & w2 & retrieved & w3 & H1 & H2 & H3 & H4 & _).
  by exists first, w1, second, w2, retrieved, w3.
Defined.

(** X18. Generating credentials touches one record only: retrieval under
    any other session, website key or email finds what it found before, and
    sessions and agents are as they were. *)
Theorem generation_leaves_other_records
    (env : Env) (w : World) (request : PasswordGenerationRequest)
    (session_id website email : string) :
  ¬ (session_id = pgr_session_id request
     ∧ website = normalize_website (pgr_website request)
     ∧ email = pgr_email request) →
  let w' := snd (run (generate_account_credentials env request) w) in
  get_account (server_state w') session_id website email
  = get_account (server_state w) session_id website email
  ∧ browser_sessions (server_state w') = browser_sessions (server_state w)
  ∧ agents (server_state w') = agents (server_state w).
Proof.
  intros Hother. cbn zeta.
  destruct (generate_password_spec env default_password_length) as (p & Hgen & _).
  destruct (generate_account_credentials_storage env request w p Hgen)
    as (w' & Hrun & Hstored & _ & _ & Hsessions & Hagents).
  rewrite Hrun. cbn [snd]. rewrite Hstored. by rewrite decide_False.
Qed.

Lemma generation_leaves_other_records_witness :
  get_account
    (server_state
       (snd (run (generate_account_credentials (example_env None)
                    {| pgr_website := "foo.com"; pgr_email := "a@b.com";
                       pgr_session_id := "s1" |}) empty_world)))
    "s2" "foo.com" "a@b.com"
  = None.
Proof.
  rewrite (proj1 (generation_leaves_other_records (example_env None) empty_world
                    {| pgr_website := "foo.com"; pgr_email := "a@b.com";
                       pgr_session_id := "s1" |} "s2" "foo.com" "a@b.com"
                    ltac:(intros (Hs & _ & _); discriminate Hs))).
  reflexivity.
Defined.

(** *** Website keys *)

Lemma split_head_no_sep (sep : ascii) (s : string) :
  ¬ In sep (list_ascii_of_string (split_head sep s)).
Proof.
  induction s as [|c s IH]; cbn; [tauto|].
  destruct (decide (c = sep)) as [->|Hne]; cbn; [tauto|].
  intros [Heq|Hin]; [done|by apply IH].
Qed.

Lemma replace_from_skip (old new p s : string) :
  replace_from old new (String.length p) (p +:+ s) = replace_from old new 0 s.
Proof.
  induction p as [|c p IH]; cbn [String.length String.append replace_from].
  - by destruct s.
  - exact IH.
Qed.

Lemma prefix_append (p s : string) : String.prefix p (p +:+ s) = true.
Proof.
  induction p as [|c p IH]; [by destruct s|].
  change (String c p +:+ s) with (String c (p +:+ s)). cbn [String.prefix].
  destruct (ascii_dec c c); [exact IH|done].
Qed.

(** A leading occurrence of a non-empty [old] is removed by
    [replace(old, '')]. *)
Lemma str_replace_leading (old s : string) :
  old ≠ "" → str_replace (old +:+ s) old "" = str_replace s old "".
Proof.
  intros Hold. unfold str_replace. destruct (decide (old = "")); [done|].
  destruct old as [|c old]; [done|].
  pose proof (prefix_append (String c old) s) as Hprefix.
  change (String c old +:+ s) with (String c (old +:+ s)) in Hprefix |- *.
  cbn [replace_from]. rewrite Hprefix.
  replace (String.length (String c old) - 1)%nat with (String.length old)
    by (cbn [String.length]; lia).
  cbn [String.append]. apply replace_from_skip.
Qed.

Lemma https_not_in_http (s : string) :
  str_replace ("http://" +:+ s) "https://" "" = "http://" +:+ str_replace s "https://" "".
Proof. unfold str_replace. destruct (decide _); [done|]. reflexivity. Qed.

Lemma https_not_in_www (s : string) :
  str_replace ("www." +:+ s) "https://" "" = "www." +:+ str_replace s "https://" "".
Proof. unfold str_replace. destruct (decide _); [done|]. reflexivity. Qed.

Lemma http_not_in_www (s : string) :
  str_replace ("www." +:+ s) "http://" "" = "www." +:+ str_replace s "http://" "".
Proof. unfold str_replace. destruct (decide _); [done|]. reflexivity. Qed.

(** X19. The website key never holds a slash, and a leading "https://",
    "http://" or "www.", or a scheme followed by "www.", does not change
    the key: all these spellings of a website share one record. *)
Theorem website_key_ignores_prefixes (website : string) :
  ¬ In "/"%char (list_ascii_of_string (normalize_website website))
  ∧ normalize_website ("https://" +:+ website) = normalize_website website
  ∧ normalize_website ("http://" +:+ website) = normalize_website website
  ∧ normalize_website ("www." +:+ website) = normalize_website website
  ∧ normalize_website ("https://www." +:+ website) = normalize_website website
  ∧ normalize_website ("http://www." +:+ website) = normalize_website website.
Proof.
  assert (normalize_website ("https://" +:+ website) = normalize_website website) as Hs.
  { unfold normalize_website. by rewrite str_replace_leading. }
  assert (∀ s, normalize_website ("http://" +:+ s) = normalize_website s) as Hp.
  { intros s. unfold normalize_website.
    by rewrite https_not_in_http, str_replace_leading. }
  assert (∀ s, normalize_website ("www." +:+ s) = normalize_website s) as Hw.
  { intros s. unfold normalize_website.
    by rewrite https_not_in_www, http_not_in_www, str_replace_leading. }
  split; [apply split_head_no_sep|].
  split; [exact Hs|]. split; [apply Hp|]. split; [apply Hw|]. split.
  - change ("https://www." +:+ website) with ("https://" +:+ ("www." +:+ website)).
    unfold normalize_website at 1. rewrite str_replace_leading by done.
    apply Hw.
  - change ("http://www." +:+ website) with ("http://" +:+ ("www." +:+ website)).
    by rewrite Hp, Hw.
Qed.

(** *** Persistence *)


Lemma load_accounts_outcome read_error w :
  ∃ w',
    run (_load_accounts_from_file read_error) w = (Ok tt, w')
    ∧ browser_sessions (server_state w') = browser_sessions (server_state w)
    ∧ agents (server_state w') = agents (server_state w)
    ∧ accounts_file w' = accounts_file w
    ∧ account_storage (server_state w')
      = match accounts_file w, read_error with
        | None, _ => account_storage (server_state w)
        | Some stored, None => stored
        | Some _, Some _ => ∅
        end
    ∧ (∀ stored msg, accounts_file w = Some stored → read_error = Some msg →
         (ERROR, "Error loading accounts from file: " +:+ msg) ∈ log w').
Proof.
  unfold _load_accounts_from_file, get_accounts_file. mstep.
  destruct (accounts_file w) as [stored|] eqn:Hfile; mstep.
  - destruct read_error as [msg|]; mstep;
      (eexists; split; [reflexivity|]); cbn; repeat split; try done.
    + intros stored' msg' _ [= <-]. apply elem_of_app. right. by left.
  - eexists. split; [reflexivity|]. rewrite Hfile. repeat split; try done.
Qed.

(** X21. Loading the accounts file never raises: without a file the vault
    in memory stays as it is; a readable file replaces the vault by its
    snapshot; a file that cannot be read empties the vault and the failure
    is logged.  Sessions, agents and the file itself are untouched. *)
Theorem load_accounts_is_total (read_error : option string) (w : World) :
  ∃ w',
    run (_load_accounts_from_file read_error) w = (Ok tt, w')
    ∧ browser_sessions (server_state w') = browser_sessions (server_state w)
    ∧ agents (server_state w') = agents (server_state w)
    ∧ accounts_file w' = accounts_file w
    ∧ account_storage (server_state w')
      = match accounts_file w, read_error with
        | None, _ => account_storage (server_state w)
        | Some stored, None => stored
        | Some _, Some _ => ∅
        end.
Proof.
  destruct (load_accounts_outcome read_error w) as (w' & H1 & H2 & H3 & H4 & H5 & _).
  by exists w'.
Qed.

(** X22. Generated credentials survive a restart: when the accounts file
    can be written, a process that starts with an empty vault and the file
    the generation left, and loads it, retrieves the generated password. *)
Theorem credentials_survive_restart
    (env : Env) (w w0 : World) (session_id email website website' : string) :
  accounts_file_error env = None →
  normalize_website website' = normalize_website website →
  accounts_file w0
  = accounts_file (snd (run (generate_account_credentials env
                               {| pgr_website := website; pgr_email := email;
                                  pgr_session_id := session_id |}) w)) →
  ∃ generated w1 retrieved w2,
    run (generate_account_credentials env
           {| pgr_website := website; pgr_email := email;
              pgr_session_id := session_id |}) w = (Ok generated, w1)
    ∧ run (retrieve_account_credentials
             {| arr_website := website'; arr_email := email;
                arr_session_id := session_id |})
          (snd (run (_load_accounts_from_file None) w0))
      = (Ok retrieved, w2)
    ∧ cr_password retrieved = cr_password generated.
Proof.
  intros Hwritable Hsame Hfile.
  destruct (generate_password_spec env default_password_length) as (p & Hgen & _).
  destruct (generate_account_credentials_storage env
              {| pgr_website := website; pgr_email := email;
                 pgr_session_id := session_id |} w p Hgen)
    as (w1 & Hrun1 & Hstored & Hwritten & _).
  rewrite Hrun1 in Hfile. cbn [snd] in Hfile.
  rewrite Hwritable in Hwritten. rewrite Hwritten in Hfile.
  destruct (load_accounts_outcome None w0) as (w0' & Hload & _ & _ & _ & Hvault & _).
  rewrite Hfile in Hvault. rewrite Hload. cbn [snd].
  destruct (retrieve_account_credentials_found
              {| arr_website := website'; arr_email := email;
                 arr_session_id := session_id |} w0'
              {| account_email := email; account_password := p |})
    as (w2 & Hrun2 & _).
  { cbn [arr_website arr_email arr_session_id].
    unfold get_account in Hstored |- *. rewrite Hvault.
    rewrite (Hstored session_id (normalize_website website') email).
    cbn [pgr_website pgr_email pgr_session_id]. by rewrite decide_True. }
  eexists _, w1, _, w2. split; [exact Hrun1|]. split; [exact Hrun2|]. done.
Qed.

Lemma credentials_survive_restart_witness :
  ∃ generated w1 retrieved w2,
    run (generate_account_credentials (example_env None)
           {| pgr_website := "https://foo.com/join"; pgr_email := "a@b.com";
              pgr_session_id := "s1" |}) empty_world = (Ok generated, w1)
    ∧ run (retrieve_account_credentials
             {| arr_website := "foo.com"; arr_email := "a@b.com";
                arr_session_id := "s1" |})
          (snd (run (_load_accounts_from_file None)
                    (restarted
                       (accounts_file
                          (snd (run (generate_account_credentials (example_env None)
                                       {| pgr_website := "https://foo.com/join";
                                          pgr_email := "a@b.com";
                                          pgr_session_id := "s1" |}) empty_world))))))
      = (Ok retrieved, w2)
    ∧ cr_password retrieved = cr_password generated.
Proof.
  exact (credentials_survive_restart (example_env None) empty_world
           (restarted
              (accounts_file
                 (snd (run (generate_account_credentials (example_env None)
                              {| pgr_website := "https://foo.com/join";
                                 pgr_email := "a@b.com";
                                 pgr_session_id := "s1" |}) empty_world))))
           "s1" "a@b.com" "https://foo.com/join" "foo.com" eq_refl eq_refl eq_refl).
Defined.

(** *** Passwords and the random source *)




(** ** Shutdown *)

Lemma close_all_agents_contained items w :
  ∃ l, run (close_all_agents items) w = (Ok tt, with_log w l).
Proof.
  revert w. induction items as [|[agent_id ref] rest IH]; intros w.
  - exists (log w). by rewrite with_log_self.
  - cbn [close_all_agents]. rewrite run_bind, run_try_except. mstep.
    destruct (close_raises (internals (agent_heap w ref))) as [msg|]; mstep;
      match goal with
      | |- context [close_all_agents rest ?w1] =>
          destruct (IH w1) as [l Hrest]; exists l;
          unfold run in Hrest; by rewrite Hrest
      end.
Qed.

Lemma stop_all_sessions_contained items w :
  ∃ l, run (stop_all_sessions items) w = (Ok tt, with_log w l).
Proof.
  revert w. induction items as [|[session_id session] rest IH]; intros w.
  - exists (log w). by rewrite with_log_self.
  - cbn [stop_all_sessions]. rewrite run_bind, run_try_except. mstep.
    destruct (stop_raises (handle session)) as [msg|]; mstep;
      match goal with
      | |- context [stop_all_sessions rest ?w1] =>
          destruct (IH w1) as [l Hrest]; exists l;
          unfold run in Hrest; by rewrite Hrest
      end.
Qed.

(** X24. [cleanup] never raises, whichever agents fail to close and
    whichever browsers fail to stop, and it removes nothing: the
    registries, the agent objects and the queue are as they were; only the
    log grows. *)
Theorem cleanup_is_best_effort (w : World) :
  ∃ l, run cleanup w = (Ok tt, with_log w l).
Proof.
  unfold cleanup. rewrite run_bind. mstep.
  match goal with
  | |- context [close_all_agents ?items ?w1] =>
      destruct (close_all_agents_contained items w1) as [l1 H1];
      unfold run in H1; rewrite H1
  end.
  mstep.
  match goal with
  | |- context [stop_all_sessions ?items ?w1] =>
      destruct (stop_all_sessions_contained items w1) as [l2 H2];
      unfold run in H2; rewrite H2
  end.
  by exists l2.
Qed.

(** ** Session ids *)

Lemma effective_id_not_empty env request : effective_id env request ≠ "".
Proof.
  unfold effective_id, str_or.
  destruct (csr_session_id request) as [s|]; [destruct (decide (s = "")); [|done]|];
    discriminate.
Qed.

(** X25. A request without a session id, or with the empty string as id,
    is registered under "session_<milliseconds>"; so [create_session] never
    registers the empty id, and whatever its outcome it leaves every id
    other than the one it registers as it was. *)
Theorem create_session_generates_ids
    (env : Env) (w : World) (request : CreateSessionRequest) :
  let w' := snd (run (create_session env request) w) in
  (csr_session_id request = None ∨ csr_session_id request = Some "" →
   effective_id env request = "session_" +:+ pretty (now_ms env))
  ∧ browser_sessions (server_state w') !! "" = browser_sessions (server_state w) !! ""
  ∧ (∀ id, id ≠ effective_id env request →
       browser_sessions (server_state w') !! id = browser_sessions (server_state w) !! id
       ∧ controllers (server_state w') !! id = controllers (server_state w) !! id
       ∧ file_systems (server_state w') !! id = file_systems (server_state w) !! id).
Proof.
  cbn zeta.
  assert (∀ id, id ≠ effective_id env request →
    browser_sessions (server_state (snd (run (create_session env request) w))) !! id
    = browser_sessions (server_state w) !! id
    ∧ controllers (server_state (snd (run (create_session env request) w))) !! id
      = controllers (server_state w) !! id
    ∧ file_systems (server_state (snd (run (create_session env request) w))) !! id
      = file_systems (server_state w) !! id) as Hframe.
  { intros id Hne.
    destruct (create_session_outcome env w request)
      as [(session & _ & l & Hrun)|[(h & _ & _ & Hrun)|(e & l & _ & _ & Hrun)]];
      rewrite Hrun; cbn [snd]; try done.
    cbn. by rewrite !lookup_insert_ne. }
  split; [|split; [|exact Hframe]].
  - unfold effective_id, str_or. by intros [->| ->].
  - apply Hframe. intros Hempty. by apply (effective_id_not_empty env request).
Qed.

Lemma create_session_generates_ids_witness :
  fst (run (create_session (example_env None)
              {| csr_session_id := Some ""; csr_headless := true;
                 csr_allowed_domains := []; csr_wait_between_actions := (1 # 2)%Q |})
           empty_world)
  = Ok {| sr_session_id := "session_1730000000000"; sr_status := "created";
          sr_message := "Browser session session_1730000000000 created successfully" |}
  ∧ effective_id (example_env None)
      {| csr_session_id := Some ""; csr_headless := true;
         csr_allowed_domains := []; csr_wait_between_actions := (1 # 2)%Q |}
    = "session_1730000000000".
Proof.
  split; [reflexivity|].
  exact (proj1 (create_session_generates_ids (example_env None) empty_world
                  {| csr_session_id := Some ""; csr_headless := true;
                     csr_allowed_domains := [];
                     csr_wait_between_actions := (1 # 2)%Q |})
           (or_intror eq_refl)).
Defined.

(** ** The demo clients: collecting tool calls *)

Section ToolCallFacts.
Context {V : Type}.

Lemma Task_induction (P : @Task V → Prop) :
  (∀ tooluse, P (MkTask tooluse None)) →
  (∀ tooluse ts, Forall P ts → P (MkTask tooluse (Some ts))) →
  ∀ t, P t.
Proof.
  intros Hleaf Hnode. fix IH 1. intros [tooluse [ts|]]; [|apply Hleaf].
  apply Hnode. induction ts as [|t ts IHts]; constructor; [apply IH | exact IHts].
Qed.

Lemma collect_task_node (tooluse : option (gmap string V)) (ts : list Task)
    (out : list ToolCall) :
  collect_task (MkTask tooluse (Some ts)) out
  = collect_tool_calls ts (out ++ own_tool_call tooluse).
Proof.
  cbn [collect_task]. unfold own_tool_call.
  assert (∀ o,
    (fix walk (ts0 : list Task) (out0 : list ToolCall) {struct ts0} : list ToolCall :=
       match ts0 with
       | [] => out0
       | t' :: rest => walk rest (collect_task t' out0)
       end) ts o = collect_tool_calls ts o) as Hwalk.
  { induction ts as [|t ts IH]; intros o; [done|]. cbn [collect_tool_calls]. apply IH. }
  rewrite Hwalk. f_equal.
  destruct tooluse as [block|]; [destruct (decide (size block = 0%nat))|];
    by rewrite ?app_nil_r.
Qed.

Lemma collect_task_leaf (tooluse : option (gmap string V)) (out : list ToolCall) :
  collect_task (MkTask tooluse None) out = (out ++ own_tool_call tooluse)%list.
Proof.
  cbn [collect_task]. unfold own_tool_call.
  destruct tooluse as [block|]; [destruct (decide (size block = 0%nat))|];
    by rewrite ?app_nil_r.
Qed.

Lemma collect_tool_calls_Forall (ts : list (@Task V)) :
  Forall (λ t, ∀ out, collect_task t out = (out ++ collect_task t [])%list) ts →
  ∀ out, collect_tool_calls ts out = (out ++ collect_tool_calls ts [])%list.
Proof.
  induction 1 as [|t ts Ht _ IH]; intros out; cbn [collect_tool_calls].
  - by rewrite app_nil_r.
  - rewrite IH, (IH (collect_task t [])), Ht. by rewrite app_assoc.
Qed.

Lemma collect_task_acc (t : @Task V) (out : list ToolCall) :
  collect_task t out = (out ++ collect_task t [])%list.
Proof.
  revert out. induction t as [tooluse|tooluse ts IH] using Task_induction; intros out.
  - by rewrite !collect_task_leaf.
  - rewrite !collect_task_node.
    rewrite (collect_tool_calls_Forall ts IH (out ++ own_tool_call tooluse)).
    rewrite (collect_tool_calls_Forall ts IH ([] ++ own_tool_call tooluse)).
    by rewrite app_nil_l, app_assoc.
Qed.

Lemma collect_tool_calls_acc (tasks : list (@Task V)) (out : list ToolCall) :
  collect_tool_calls tasks out = (out ++ collect_tool_calls tasks [])%list.
Proof.
  apply collect_tool_calls_Forall. apply Forall_forall.
  intros t _ o. apply collect_task_acc.
Qed.

(** X26. [collect_tool_calls] only appends: what [out] held before stays
    in front.  The calls come in pre-order: a task contributes its own
    tool-use block first (when the block has a key), then the calls of its
    subtasks; and the calls of a list of tasks are those of its parts, one
    after the other. *)
Theorem collect_tool_calls_is_preorder
    (tasks tasks' : list (@Task V)) (out : list ToolCall)
    (tooluse : option (gmap string V)) (subtasks : option (list Task)) :
  collect_tool_calls tasks out = (out ++ collect_tool_calls tasks [])%list
  ∧ collect_tool_calls (tasks ++ tasks') []
    = (collect_tool_calls tasks [] ++ collect_tool_calls tasks' [])%list
  ∧ collect_tool_calls (MkTask tooluse subtasks :: tasks) []
    = (own_tool_call tooluse ++ collect_tool_calls (default [] subtasks) []
       ++ collect_tool_calls tasks [])%list.
Proof.
  split; [apply collect_tool_calls_acc|]. split.
  - induction tasks as [|t ts IH]; [done|].
    cbn [app collect_tool_calls].
    rewrite (collect_tool_calls_acc (ts ++ tasks')), IH.
    rewrite (collect_tool_calls_acc ts (collect_task t [])).
    by rewrite app_assoc.
  - cbn [collect_tool_calls]. rewrite collect_tool_calls_acc.
    destruct subtasks as [ts|]; cbn [default].
    + rewrite collect_task_node, app_nil_l.
      rewrite (collect_tool_calls_acc ts). by rewrite app_assoc.
    + rewrite collect_task_leaf. reflexivity.
Qed.

End ToolCallFacts.
